(* ===================================================================== *)
(* CompetiScope agent (src/main.py): cache, fallback and routing logic   *)
(* ===================================================================== *)
(* A shallow embedding of the request path of src/main.py:

     get_company_basic_info / get_recent_news / get_market_data
     analyze_with_ai, is_cache_valid, get_comprehensive_analysis
     analyze_competitor (POST /analyze), telex_webhook (POST /webhook/telex)
     health_check (GET /health)

   and of extract_company_name of src/config.py.

   Conventions.
   - A Python [str] is a [string]; each character is a code point below
     256, and the character classes used by [str.strip] and [str.lower]
     are Python's on that range.
   - A [datetime] is an integer number of microseconds; [isoformat]
     followed by [fromisoformat] is the identity on it, so the cache stores
     the instant itself.
   - The module-level [cache] dict is a [gmap string cache_entry] threaded
     through every operation, together with a trace of the calls made to
     collaborators (collectors, language model, cache).
   - What the outside world answers is read from an [Env]: the wall clock,
     the language model and whether a collector body raises.
   - [json.loads] and the field validation of the pydantic models are
     library code; they are the operations of the class [Libs].  What
     [json.loads] raises, a JSONDecodeError or another exception, is part
     of what it yields.
   - [logger] calls are not modelled: they change neither data nor
     control flow. *)

From Stdlib Require Import ZArith Ascii String List Bool Lia.
From stdpp Require Import base option gmap strings list.

Set Warnings "-register-all".

Local Open Scope string_scope.
Local Open Scope Z_scope.

(* --------------------------------------------------------------------- *)
(* Python string operations                                              *)
(* --------------------------------------------------------------------- *)
Module PyStr.

(* [str.isspace] on one character: TAB LF VT FF CR, FS GS RS US, SPACE,
   NEL (0x85) and NBSP (0xA0). *)
Definition isspace (c : ascii) : bool :=
  let n := N_of_ascii c in
  ((9 <=? n) && (n <=? 13) || (28 <=? n) && (n <=? 32)
   || (n =? 133) || (n =? 160))%N.

(* [str.lower] on one character: A-Z, and the accented capitals
   0xC0-0xDE except the multiplication sign 0xD7. *)
Definition lower_char (c : ascii) : ascii :=
  let n := N_of_ascii c in
  if ((65 <=? n) && (n <=? 90)
      || (192 <=? n) && (n <=? 222) && negb (n =? 215))%N
  then ascii_of_N (n + 32) else c.

Fixpoint lower (s : string) : string :=
  match s with
  | EmptyString => EmptyString
  | String c s' => String (lower_char c) (lower s')
  end.

Fixpoint lstrip (s : string) : string :=
  match s with
  | EmptyString => EmptyString
  | String c s' => if isspace c then lstrip s' else s
  end.

Fixpoint rstrip (s : string) : string :=
  match s with
  | EmptyString => EmptyString
  | String c s' =>
      match rstrip s' with
      | EmptyString => if isspace c then EmptyString else String c EmptyString
      | r => String c r
      end
  end.

(* [s.strip()] *)
Definition strip (s : string) : string := rstrip (lstrip s).

(* [s.startswith(p)] *)
Definition startswith (s p : string) : bool := String.prefix p s.

(* [s.startswith((p1, ..., pn))] *)
Definition startswith_any (s : string) (ps : list string) : bool :=
  existsb (startswith s) ps.

(* [s.split(" ", 1)]: cut at the first SPACE, if there is one. *)
Fixpoint split_space_1 (s : string) : list string :=
  match s with
  | EmptyString => [EmptyString]
  | String c s' =>
      if Ascii.eqb c " "%char then [EmptyString; s']
      else match split_space_1 s' with
           | [h] => [String c h]
           | h :: t => String c h :: t
           | [] => [String c EmptyString]
           end
  end.

(* [sep.join(l)] *)
Fixpoint join (sep : string) (l : list string) : string :=
  match l with
  | [] => EmptyString
  | [x] => x
  | x :: rest => x ++ sep ++ join sep rest
  end.

(* every character of [s] is white space *)
Fixpoint all_space (s : string) : bool :=
  match s with
  | EmptyString => true
  | String c s' => isspace c && all_space s'
  end.

(* [s.split()]: the maximal runs of characters that are not white space *)
Fixpoint words (s : string) : list string :=
  match s with
  | EmptyString => []
  | String c s' =>
      if isspace c then words s'
      else match s' with
           | EmptyString => [String c EmptyString]
           | String c' _ =>
               if isspace c' then String c EmptyString :: words s'
               else match words s' with
                    | w :: ws => String c w :: ws
                    | [] => [String c EmptyString]
                    end
           end
  end.

End PyStr.

(* --------------------------------------------------------------------- *)
(* Values                                                                *)
(* --------------------------------------------------------------------- *)

(* What [json.loads] returns.  A JSON object is its list of items; [get]
   reads the binding of a key.  A number with a fraction or an exponent
   keeps its lexeme. *)
Inductive json : Type :=
| JNull
| JBool (b : bool)
| JInt (n : Z)
| JFloat (lexeme : string)
| JStr (s : string)
| JList (l : list json)
| JDict (items : list (string * json)).

(* [d.get(k)] on the items of a dict *)
Fixpoint dict_lookup {A} (k : string) (items : list (string * A)) : option A :=
  match items with
  | [] => None
  | (k', v) :: rest => if String.eqb k k' then Some v else dict_lookup k rest
  end.

(* [d.get(k, default)] *)
Definition dict_get {A} (items : list (string * A)) (k : string) (default : A) : A :=
  match dict_lookup k items with
  | Some v => v
  | None => default
  end.

(* The attribute bags of the basic-info and market collectors: every
   value is a string. *)
Definition bag : Type := list (string * string).

(* A value of a news item: a string, or the isoformat text of an instant. *)
Inductive news_field : Type :=
| Text (s : string)
| IsoTime (t : Z).

Definition news_item : Type := list (string * news_field).

(* class CompetitorIntelligence(BaseModel) *)
Record CompetitorIntelligence : Type := {
  company : string;
  analysis_summary : string;
  strengths : list string;
  weaknesses : list string;
  opportunities : list string;
  threats : list string;
  market_position : string;
  recommendations : list string;
  confidence_score : Z;
  data_sources : list string
}.

(* class CompanyAnalysisRequest(BaseModel) *)
Record CompanyAnalysisRequest : Type := {
  req_company : string;
  req_market : option string;
  req_focus_areas : option (list string)
}.

(* The exceptions of the request path.  [HTTPException] carries the fixed
   part of its detail and, for line 219, the exception whose text is
   interpolated after it. *)
Inductive exn : Type :=
| GenerationError
| AttributeError
| ValidationError
| KeyError
| FetchError
| JSONDecodeError
| RecursionError
| ValueError
| HTTPException (status_code : Z) (detail : string) (cause : option exn).

(* The [comprehensive_data] dict built at lines 184-193. *)
Record CollectedData : Type := {
  basic_info : bag;
  recent_news : list news_item;
  market_data : bag;
  analysis_request : CompanyAnalysisRequest
}.

(* The two values interpolated into the prompt text of analyze_with_ai:
   the data bag and [focus_areas or ['comprehensive analysis']]. *)
Record Prompt : Type := {
  prompt_data : CollectedData;
  prompt_focus : list string
}.

(* One entry of the cache: a dict that may hold 'data' and 'timestamp'. *)
Record cache_entry : Type := {
  entry_data : option CompetitorIntelligence;
  entry_timestamp : option Z
}.

Inductive collector : Type := BasicInfo | RecentNews | MarketData.

(* Calls to collaborators, in the order they happen. *)
Inductive event : Type :=
| EvCacheRead (key : string)
| EvCollector (c : collector) (company_name : string)
| EvGenerate (p : Prompt)
| EvCacheWrite (key : string).

(* What the language model call yields: a response text, or an exception
   (from [generate_content] or from reading [response.text]). *)
Inductive llm_reply : Type :=
| LlmText (text : string)
| LlmRaises.

(* The outside world.  The n-th reading of the clock, the n-th answer of
   the model, and whether the body of the n-th collector call raises. *)
Record Env : Type := {
  now_at : nat -> Z;
  generate_content : nat -> Prompt -> llm_reply;
  body_raises : nat -> collector -> bool
}.

(* The process state. *)
Record World : Type := {
  cache : gmap string cache_entry;
  clock_reads : nat;
  llm_calls : nat;
  fetches : nat;
  trace : list event
}.

(* What a call yields: a value, or the exception it raises. *)
Inductive outcome (A : Type) : Type :=
| Ok (a : A)
| Raise (e : exn).
Arguments Ok {A} a.
Arguments Raise {A} e.

(* Library operations the code calls.  [json_loads] is [json.loads]: it
   returns the parsed value, raises JSONDecodeError on a text that is not
   JSON, and can raise other exceptions (RecursionError on a text nested
   too deeply, ValueError on an integer literal with too many digits).
   The three validators are what pydantic does to a value given for an
   [int], a [str] and a [List[str]] field ([None] when it raises
   ValidationError); a value that already has the type of the field is
   kept as it is. *)
Class Libs : Type := {
  json_loads : string -> outcome json;
  validate_int : json -> option Z;
  validate_str : json -> option string;
  validate_str_list : json -> option (list string);
  validate_int_exact : forall n, validate_int (JInt n) = Some n;
  validate_str_exact : forall s, validate_str (JStr s) = Some s;
  validate_str_list_exact :
    forall l, validate_str_list (JList (map JStr l)) = Some l
}.

(* --------------------------------------------------------------------- *)
(* Computations over the process state that may raise                    *)
(* --------------------------------------------------------------------- *)

Definition M (A : Type) : Type := World -> outcome A * World.

Definition ret {A} (a : A) : M A := fun w => (Ok a, w).

Definition raise {A} (e : exn) : M A := fun w => (Raise e, w).

(* a call that does not touch the world *)
Definition lift {A} (o : outcome A) : M A := fun w => (o, w).

Definition bind {A B} (m : M A) (k : A -> M B) : M B :=
  fun w =>
    match m w with
    | (Ok a, w') => k a w'
    | (Raise e, w') => (Raise e, w')
    end.

(* try: m  except Exception as e: h e *)
Definition try_except {A} (m : M A) (h : exn -> M A) : M A :=
  fun w =>
    match m w with
    | (Ok a, w') => (Ok a, w')
    | (Raise e, w') => h e w'
    end.

Notation "'let*' x ':=' m 'in' k" := (bind m (fun x => k))
  (at level 10, x name, m at level 100, k at level 200).
Notation "m ';;' k" := (bind m (fun _ => k))
  (at level 100, k at level 200, right associativity).

Definition emit (e : event) : M unit :=
  fun w =>
    (Ok tt, {| cache := cache w; clock_reads := clock_reads w;
               llm_calls := llm_calls w; fetches := fetches w;
               trace := trace w ++ [e] |}).

Definition cache_get (key : string) : M (option cache_entry) :=
  fun w => (Ok (cache w !! key), w).

Definition cache_put (key : string) (e : cache_entry) : M unit :=
  fun w =>
    (Ok tt, {| cache := <[key := e]> (cache w); clock_reads := clock_reads w;
               llm_calls := llm_calls w; fetches := fetches w;
               trace := trace w |}).

(* --------------------------------------------------------------------- *)
(* The agent                                                             *)
(* --------------------------------------------------------------------- *)

(* CACHE_TTL = 3600 *)
Definition CACHE_TTL : Z := 3600.

(* timedelta(seconds=n), in microseconds *)
Definition timedelta_seconds (n : Z) : Z := n * 1000000.

(* f"{market}" for an Optional[str] *)
Definition fmt_optional (m : option string) : string :=
  match m with
  | Some s => s
  | None => "None"
  end.

(* x or d, for an Optional[List[str]]: None and [] are both falsy *)
Definition or_list (x : option (list string)) (d : list string) : list string :=
  match x with
  | Some (a :: l) => a :: l
  | _ => d
  end.

(* line 168: f"{company}_{market}_{'-'.join(focus_areas or [])}" *)
Definition cache_key (company_name : string) (market : option string)
    (focus_areas : option (list string)) : string :=
  company_name ++ "_" ++ fmt_optional market ++ "_"
    ++ PyStr.join "-" (or_list focus_areas []).

(* line 207 *)
Definition DATA_SOURCES : list string :=
  ["company_data"; "news_analysis"; "market_data"; "ai_analysis"].

(* lines 146-155: the dict returned when the response is not JSON *)
Definition fallback_insights (company_data : CollectedData) : json :=
  JDict
    [ ("analysis_summary",
       JStr ("Basic analysis of "
               ++ dict_get (basic_info company_data) "name" "company"
               ++ " based on available data."));
      ("strengths",
       JList [JStr "Market presence"; JStr "Brand recognition";
              JStr "Innovation capability"]);
      ("weaknesses",
       JList [JStr "Limited data available"; JStr "Market competition";
              JStr "Economic sensitivity"]);
      ("opportunities",
       JList [JStr "Digital transformation"; JStr "Market expansion";
              JStr "Strategic partnerships"]);
      ("threats",
       JList [JStr "Economic uncertainty"; JStr "Competitive pressure";
              JStr "Regulatory changes"]);
      ("market_position",
       JStr "Competitive position requires further analysis with more comprehensive data.");
      ("recommendations",
       JList [JStr "Conduct deeper market research";
              JStr "Monitor competitor activities";
              JStr "Focus on differentiation"]);
      ("confidence_score", JInt 60) ].

Section Agent.

Context {L : Libs} (env : Env).

(* datetime.now() *)
Definition now : M Z :=
  fun w =>
    (Ok (now_at env (clock_reads w)),
     {| cache := cache w; clock_reads := S (clock_reads w);
        llm_calls := llm_calls w; fetches := fetches w; trace := trace w |}).

(* Entering the body of a collector: the call is recorded, and the world
   decides whether the body raises. *)
Definition enter_body (c : collector) (company_name : string) : M unit :=
  fun w =>
    let w' := {| cache := cache w; clock_reads := clock_reads w;
                 llm_calls := llm_calls w; fetches := S (fetches w);
                 trace := trace w ++ [EvCollector c company_name] |} in
    if body_raises env (fetches w) c then (Raise FetchError, w')
    else (Ok tt, w').

(* model.generate_content(prompt), then response.text *)
Definition generate (p : Prompt) : M string :=
  fun w =>
    let w' := {| cache := cache w; clock_reads := clock_reads w;
                 llm_calls := S (llm_calls w); fetches := fetches w;
                 trace := trace w ++ [EvGenerate p] |} in
    match generate_content env (llm_calls w) p with
    | LlmText text => (Ok text, w')
    | LlmRaises => (Raise GenerationError, w')
    end.

(* lines 64-82 *)
Definition get_company_basic_info (company_name : string) : M bag :=
  try_except
    (enter_body BasicInfo company_name ;;
     ret [ ("name", company_name);
           ("industry", "Technology");
           ("founded", "Unknown");
           ("headquarters", "Unknown");
           ("employees", "Unknown");
           ("description", "Information about " ++ company_name);
           ("source", "public_data") ])
    (fun _ =>
       ret [ ("name", company_name);
             ("error", "Could not fetch basic info") ]).

(* lines 84-98 *)
Definition get_recent_news (company_name : string) : M (list news_item) :=
  try_except
    (enter_body RecentNews company_name ;;
     let* t := now in
     ret [ [ ("title", Text ("Recent developments at " ++ company_name));
             ("summary", Text ("Latest news and updates about " ++ company_name));
             ("sentiment", Text "neutral");
             ("date", IsoTime t);
             ("source", Text "news_simulation") ] ])
    (fun _ => ret []).

(* lines 100-113 *)
Definition get_market_data (company_name : string) : M bag :=
  try_except
    (enter_body MarketData company_name ;;
     ret [ ("market_cap", "Unknown");
           ("stock_price", "Unknown");
           ("revenue", "Unknown");
           ("market_share", "Unknown");
           ("growth_rate", "Unknown");
           ("source", "market_simulation") ])
    (fun _ => ret [ ("error", "Could not fetch market data") ]).

(* lines 115-158 *)
Definition analyze_with_ai (company_data : CollectedData)
    (focus_areas : option (list string)) : M json :=
  try_except
    (let prompt := {| prompt_data := company_data;
                      prompt_focus := or_list focus_areas ["comprehensive analysis"] |} in
     let* text := generate prompt in
     let* ai_analysis := lift (json_loads (PyStr.strip text)) in
     ret ai_analysis)
    (fun e =>
       match e with
       | JSONDecodeError => ret (fallback_insights company_data)
       | _ => raise (HTTPException 500 "AI analysis failed" None)
       end).

(* lines 160-165 *)
Definition is_cache_valid (cache_entry : cache_entry) : M bool :=
  match entry_timestamp cache_entry with
  | None => ret false
  | Some cache_time =>
      let* t := now in
      ret (t - cache_time <? timedelta_seconds CACHE_TTL)
  end.

(* lines 197-208: CompetitorIntelligence(company=..., ...=ai_insights.get(...)) *)
Definition assemble (company_name : string) (ai_insights : json)
    : outcome CompetitorIntelligence :=
  match ai_insights with
  | JDict d =>
      match validate_str (dict_get d "analysis_summary" (JStr "")),
            validate_str_list (dict_get d "strengths" (JList [])),
            validate_str_list (dict_get d "weaknesses" (JList [])),
            validate_str_list (dict_get d "opportunities" (JList [])),
            validate_str_list (dict_get d "threats" (JList [])),
            validate_str (dict_get d "market_position" (JStr "")),
            validate_str_list (dict_get d "recommendations" (JList [])),
            validate_int (dict_get d "confidence_score" (JInt 70))
      with
      | Some summary, Some s, Some wk, Some o, Some t, Some mp, Some r, Some cs =>
          Ok {| company := company_name;
                analysis_summary := summary;
                strengths := s;
                weaknesses := wk;
                opportunities := o;
                threats := t;
                market_position := mp;
                recommendations := r;
                confidence_score := cs;
                data_sources := DATA_SOURCES |}
      | _, _, _, _, _, _, _, _ => Raise ValidationError
      end
  | _ => Raise AttributeError
  end.

(* lines 173-219: the path taken when the cache does not answer.  The
   three collector coroutines are awaited together and none of them
   waits for another; they run here in the order of the task list. *)
Definition generate_fresh (cache_key : string) (company_name : string)
    (market : option string) (focus_areas : option (list string))
    : M CompetitorIntelligence :=
  try_except
    (let* basic := get_company_basic_info company_name in
     let* news := get_recent_news company_name in
     let* market_d := get_market_data company_name in
     let comprehensive_data :=
       {| basic_info := basic;
          recent_news := news;
          market_data := market_d;
          analysis_request :=
            {| req_company := company_name; req_market := market;
               req_focus_areas := focus_areas |} |} in
     let* ai_insights := analyze_with_ai comprehensive_data focus_areas in
     let* result := lift (assemble company_name ai_insights) in
     let* t := now in
     cache_put cache_key {| entry_data := Some result; entry_timestamp := Some t |} ;;
     emit (EvCacheWrite cache_key) ;;
     ret result)
    (fun e => raise (HTTPException 500 "Analysis failed: " (Some e))).

(* lines 167-219 *)
Definition get_comprehensive_analysis (company_name : string)
    (market : option string) (focus_areas : option (list string))
    : M CompetitorIntelligence :=
  let cache_key := cache_key company_name market focus_areas in
  emit (EvCacheRead cache_key) ;;
  let* hit := cache_get cache_key in
  let* valid := match hit with
                | Some e => is_cache_valid e
                | None => ret false
                end in
  if valid then
    match hit with
    | Some {| entry_data := Some d |} => ret d
    | _ => raise KeyError
    end
  else generate_fresh cache_key company_name market focus_areas.

(* lines 235-254: POST /analyze *)
Definition analyze_competitor (request : CompanyAnalysisRequest)
    : M CompetitorIntelligence :=
  if String.eqb (PyStr.strip (req_company request)) "" then
    raise (HTTPException 400 "Company name is required" None)
  else
    try_except
      (get_comprehensive_analysis (req_company request) (req_market request)
         (req_focus_areas request))
      (fun _ => raise (HTTPException 500 "Analysis failed" None)).

(* The texts the webhook answers with.  They are pairwise different
   strings in the source; each constructor stands for one of them:
   - [MsgAnalysis]: the multi-section text of lines 275-293, which shows
     the company, the summary, strengths[:3], weaknesses[:3],
     opportunities[:3], recommendations[:2] and the confidence score;
   - [MsgApology c]: "Sorry, I couldn't analyze c. Please try again with a
     different company name.";
   - [MsgNeedCompany]: "Please specify a company name to analyze. ...";
   - [MsgGreeting]: "Hi! I'm CompetiScope ... Try: 'analyze [company name]'";
   - [MsgError]: "Sorry, I encountered an error. Please try again.". *)
Inductive message : Type :=
| MsgAnalysis (shown_company shown_summary : string)
    (shown_strengths shown_weaknesses shown_opportunities
       shown_recommendations : list string)
    (shown_confidence : Z)
| MsgApology (company_name : string)
| MsgNeedCompany
| MsgGreeting
| MsgError.

(* The dict returned by the webhook; a key that is not set is [None]. *)
Record webhook_response : Type := {
  response : message;
  resp_channel_id : option json;
  resp_user_id : option json;
  resp_error : option exn
}.

Definition render (analysis : CompetitorIntelligence) : message :=
  MsgAnalysis (company analysis) (analysis_summary analysis)
    (firstn 3 (strengths analysis)) (firstn 3 (weaknesses analysis))
    (firstn 3 (opportunities analysis)) (firstn 2 (recommendations analysis))
    (confidence_score analysis).

(* line 267 *)
Definition COMMANDS : list string := ["analyze"; "check"; "research"].

(* lines 261-316, once [data] is known to be a dict *)
Definition webhook_body (data : list (string * json)) : M webhook_response :=
  match dict_get data "content" (JStr "") with
  | JStr raw =>
      let content := PyStr.strip raw in
      let channel_id := dict_get data "channel_id" (JStr "") in
      let user_id := dict_get data "user_id" (JStr "") in
      if PyStr.startswith_any (PyStr.lower content) COMMANDS then
        match PyStr.split_space_1 content with
        | _ :: arg :: _ =>
            let company_name := PyStr.strip arg in
            try_except
              (let* analysis := get_comprehensive_analysis company_name None None in
               ret {| response := render analysis;
                      resp_channel_id := Some channel_id;
                      resp_user_id := Some user_id;
                      resp_error := None |})
              (fun e =>
                 ret {| response := MsgApology company_name;
                        resp_channel_id := Some channel_id;
                        resp_user_id := None;
                        resp_error := Some e |})
        | _ =>
            ret {| response := MsgNeedCompany;
                   resp_channel_id := Some channel_id;
                   resp_user_id := None;
                   resp_error := None |}
        end
      else
        ret {| response := MsgGreeting;
               resp_channel_id := Some channel_id;
               resp_user_id := None;
               resp_error := None |}
  | _ => raise AttributeError
  end.

(* lines 256-323: POST /webhook/telex.  [request_json] is what
   [await request.json()] yields, [None] when it raises. *)
Definition telex_webhook (request_json : option json) : M webhook_response :=
  try_except
    (match request_json with
     | Some (JDict data) => webhook_body data
     | Some _ => raise AttributeError
     | None => raise JSONDecodeError
     end)
    (fun e =>
       ret {| response := MsgError;
              resp_channel_id := None;
              resp_user_id := None;
              resp_error := Some e |}).

End Agent.

(* --------------------------------------------------------------------- *)
(* The health endpoint; the process as a server of requests              *)
(* --------------------------------------------------------------------- *)

(* The dict returned by GET /health. *)
Record health : Type := {
  health_status : string;
  health_timestamp : Z;
  cache_size : nat;
  gemini_configured : bool;
  health_version : string
}.

(* bool(os.getenv(name)): a variable that is unset or empty is falsy *)
Definition env_var_truthy (value : option string) : bool :=
  match value with
  | None | Some EmptyString => false
  | Some _ => true
  end.

(* One request to the service.  [GetHealth] carries the value of the
   environment variable GEMINI_API_KEY at the time of the request. *)
Inductive request : Type :=
| PostAnalyze (r : CompanyAnalysisRequest)
| PostWebhook (request_json : option json)
| GetHealth (gemini_api_key : option string).

Section Server.

Context {L : Libs} (env : Env).

(* lines 325-333: GET /health *)
Definition health_check (gemini_api_key : option string) : M health :=
  let* t := now env in
  fun w =>
    (Ok {| health_status := "healthy";
           health_timestamp := t;
           cache_size := size (cache w);
           gemini_configured := env_var_truthy gemini_api_key;
           health_version := "1.0.0" |}, w).

(* The world after one request has been answered. *)
Definition serve (q : request) (w : World) : World :=
  match q with
  | PostAnalyze r => snd (analyze_competitor env r w)
  | PostWebhook request_json => snd (telex_webhook env request_json w)
  | GetHealth k => snd (health_check k w)
  end.

(* The world after the requests [qs] have been answered one by one. *)
Definition serve_all (qs : list request) (w : World) : World :=
  fold_left (fun w q => serve q w) qs w.

End Server.

(* --------------------------------------------------------------------- *)
(* src/config.py: extract_company_name                                   *)
(* --------------------------------------------------------------------- *)

(* lines 49 of src/config.py *)
Definition REMOVE_WORDS : list string :=
  ["analyze"; "check"; "research"; "tell"; "me"; "about"; "company";
   "competitor"].

(* w not in remove_words *)
Definition kept (w : string) : bool :=
  negb (existsb (String.eqb w) REMOVE_WORDS).

(* lines 43-56 of src/config.py.  [title] is [str.title]. *)
Definition extract_company_name (title : string -> string) (text : string)
    : option string :=
  let text := PyStr.lower (PyStr.strip text) in
  let words := PyStr.words text in
  let filtered_words := filter (fun w => kept w = true) words in
  match filtered_words with
  | [] => None
  | _ => Some (title (PyStr.join " " filtered_words))
  end.

(* --------------------------------------------------------------------- *)
(* Notions used to state what the agent does                             *)
(* --------------------------------------------------------------------- *)

(* The world after the cache was read at [key]. *)
Definition with_read (w : World) (key : string) : World :=
  {| cache := cache w; clock_reads := clock_reads w; llm_calls := llm_calls w;
     fetches := fetches w; trace := trace w ++ [EvCacheRead key] |}.

(* The world after one reading of the clock. *)
Definition tick (w : World) : World :=
  {| cache := cache w; clock_reads := S (clock_reads w);
     llm_calls := llm_calls w; fetches := fetches w; trace := trace w |}.

Section Derived.

Context {L : Libs} (env : Env).

(* The world after collector [k] was called for company [c]. *)
Definition entered (w : World) (k : collector) (c : string) : World :=
  {| cache := cache w; clock_reads := clock_reads w; llm_calls := llm_calls w;
     fetches := S (fetches w);
     trace := (trace w ++ [EvCollector k c])%list |}.

(* The world after the model was asked [p]. *)
Definition asked (w : World) (p : Prompt) : World :=
  {| cache := cache w; clock_reads := clock_reads w;
     llm_calls := S (llm_calls w); fetches := fetches w;
     trace := (trace w ++ [EvGenerate p])%list |}.

(* The world after [r] was stored under [key] with the time then read. *)
Definition stored (w : World) (key : string) (r : CompetitorIntelligence) : World :=
  {| cache := <[key := {| entry_data := Some r;
                          entry_timestamp := Some (now_at env (clock_reads w)) |}]>
                (cache w);
     clock_reads := S (clock_reads w);
     llm_calls := llm_calls w; fetches := fetches w;
     trace := (trace w ++ [EvCacheWrite key])%list |}.

(* The values the collectors return in world [w]. *)
Definition basic_info_at (c : string) (w : World) : bag :=
  if body_raises env (fetches w) BasicInfo
  then [ ("name", c); ("error", "Could not fetch basic info") ]
  else [ ("name", c); ("industry", "Technology"); ("founded", "Unknown");
         ("headquarters", "Unknown"); ("employees", "Unknown");
         ("description", "Information about " ++ c);
         ("source", "public_data") ].

Definition recent_news_at (c : string) (w : World) : list news_item :=
  if body_raises env (fetches w) RecentNews
  then []
  else [ [ ("title", Text ("Recent developments at " ++ c));
           ("summary", Text ("Latest news and updates about " ++ c));
           ("sentiment", Text "neutral");
           ("date", IsoTime (now_at env (clock_reads w)));
           ("source", Text "news_simulation") ] ].

Definition market_data_at (w : World) : bag :=
  if body_raises env (fetches w) MarketData
  then [ ("error", "Could not fetch market data") ]
  else [ ("market_cap", "Unknown"); ("stock_price", "Unknown");
         ("revenue", "Unknown"); ("market_share", "Unknown");
         ("growth_rate", "Unknown"); ("source", "market_simulation") ].

(* The world after get_recent_news: the clock is read only by a body that
   did not raise. *)
Definition after_news (c : string) (w : World) : World :=
  if body_raises env (fetches w) RecentNews
  then entered w RecentNews c
  else tick (entered w RecentNews c).

(* The data bag of lines 184-193 and the world in which it is complete. *)
Definition collected_data (c : string) (m : option string)
    (f : option (list string)) (w : World) : CollectedData :=
  {| basic_info := basic_info_at c w;
     recent_news := recent_news_at c (entered w BasicInfo c);
     market_data := market_data_at (after_news c (entered w BasicInfo c));
     analysis_request :=
       {| req_company := c; req_market := m; req_focus_areas := f |} |}.

Definition collected_world (c : string) (w : World) : World :=
  entered (after_news c (entered w BasicInfo c)) MarketData c.

Definition prompt_of (c : string) (m : option string)
    (f : option (list string)) (w : World) : Prompt :=
  {| prompt_data := collected_data c m f w;
     prompt_focus := or_list f ["comprehensive analysis"] |}.

(* What analyze_with_ai yields for a response text. *)
Definition insights_of (data : CollectedData) (text : string) : outcome json :=
  match json_loads (PyStr.strip text) with
  | Ok v => Ok v
  | Raise JSONDecodeError => Ok (fallback_insights data)
  | Raise _ => Raise (HTTPException 500 "AI analysis failed" None)
  end.

(* What the assembly of lines 197-208 yields for a response text. *)
Definition assembled_of (c : string) (data : CollectedData) (text : string)
    : outcome CompetitorIntelligence :=
  match insights_of data text with
  | Ok v => assemble c v
  | Raise e => Raise e
  end.

End Derived.

(* The value of a field of the result: the validated value the mapping
   supplies under [k], or the default when the mapping has no such key. *)
Definition supplied_or {A} (validate : json -> option A) (default : A)
    (d : list (string * json)) (k : string) : option A :=
  match dict_lookup k d with
  | Some v => validate v
  | None => Some default
  end.

(* The result assembled from the fallback insights for company [c], when
   the data bag names the company [name]. *)
Definition fallback_result (c name : string) : CompetitorIntelligence :=
  {| company := c;
     analysis_summary := "Basic analysis of " ++ name ++ " based on available data.";
     strengths := ["Market presence"; "Brand recognition"; "Innovation capability"];
     weaknesses := ["Limited data available"; "Market competition";
                    "Economic sensitivity"];
     opportunities := ["Digital transformation"; "Market expansion";
                       "Strategic partnerships"];
     threats := ["Economic uncertainty"; "Competitive pressure";
                 "Regulatory changes"];
     market_position :=
       "Competitive position requires further analysis with more comprehensive data.";
     recommendations := ["Conduct deeper market research";
                         "Monitor competitor activities";
                         "Focus on differentiation"];
     confidence_score := 60;
     data_sources := DATA_SOURCES |}.

(* Every confidence_score the model supplies validates to an integer
   between 0 and 100. *)
Definition scores_in_range {L : Libs} (env : Env) : Prop :=
  forall n p text d v z,
    generate_content env n p = LlmText text ->
    json_loads (PyStr.strip text) = Ok (JDict d) ->
    dict_lookup "confidence_score" d = Some v ->
    validate_int v = Some z ->
    0 <= z <= 100.

(* Every result held by the cache has its score between 0 and 100. *)
Definition cache_in_range (w : World) : Prop :=
  forall k e d,
    cache w !! k = Some e -> entry_data e = Some d ->
    0 <= confidence_score d <= 100.

(* What the webhook answers to a content, by the command it starts with
   and by what follows the first space. *)
Definition routed {L : Libs} (env : Env) (data : list (string * json))
    (content : string) (w : World) : webhook_response :=
  let channel_id := dict_get data "channel_id" (JStr "") in
  let user_id := dict_get data "user_id" (JStr "") in
  if PyStr.startswith_any (PyStr.lower content) COMMANDS then
    match PyStr.split_space_1 content with
    | _ :: arg :: _ =>
        match fst (get_comprehensive_analysis env (PyStr.strip arg) None None w) with
        | Ok analysis =>
            {| response := render analysis; resp_channel_id := Some channel_id;
               resp_user_id := Some user_id; resp_error := None |}
        | Raise e =>
            {| response := MsgApology (PyStr.strip arg);
               resp_channel_id := Some channel_id;
               resp_user_id := None; resp_error := Some e |}
        end
    | _ => {| response := MsgNeedCompany; resp_channel_id := Some channel_id;
              resp_user_id := None; resp_error := None |}
    end
  else {| response := MsgGreeting; resp_channel_id := Some channel_id;
          resp_user_id := None; resp_error := None |}.

(* Every entry of the cache is one that lines 210-213 can have written:
   it holds a timestamp and a result; the result has the four data
   sources, and its company is one whose key, for some market and focus
   areas, is the key of the entry. *)
Definition cache_sound (w : World) : Prop :=
  forall k e, cache w !! k = Some e ->
    exists d t, e = {| entry_data := Some d; entry_timestamp := Some t |} /\
                data_sources d = DATA_SOURCES /\
                exists m f, k = cache_key (company d) m f.

(* --------------------------------------------------------------------- *)
(* A concrete library and concrete worlds, for running the agent         *)
(* --------------------------------------------------------------------- *)
Module Sample.

(* The double quote character. *)
Definition dq : string := String (ascii_of_N 34) EmptyString.

(* A response giving only a confidence score of 150. *)
Definition text_score_150 : string :=
  "{" ++ dq ++ "confidence_score" ++ dq ++ ": 150}".

(* A response giving only a confidence score of 85. *)
Definition text_score_85 : string :=
  "{" ++ dq ++ "confidence_score" ++ dq ++ ": 85}".

(* A response giving only a summary. *)
Definition text_summary_only : string :=
  "{" ++ dq ++ "analysis_summary" ++ dq ++ ": " ++ dq ++ "Solid" ++ dq ++ "}".

(* A response that is not JSON. *)
Definition text_prose : string := "Sure! Here is my analysis of the company.".

(* s * n *)
Fixpoint times (s : string) (n : nat) : string :=
  match n with
  | O => EmptyString
  | S n' => s ++ times s n'
  end.

(* A response of 2000 opening brackets: json.loads gives up on its
   nesting with a RecursionError. *)
Definition text_deep : string := times "[" 2000.

(* [json.loads] on the texts above; any other text is taken to be
   undecodable, as [text_prose] is. *)
Definition loads (s : string) : outcome json :=
  if String.eqb s text_score_150 then
    Ok (JDict [("confidence_score", JInt 150)])
  else if String.eqb s text_score_85 then
    Ok (JDict [("confidence_score", JInt 85)])
  else if String.eqb s text_summary_only then
    Ok (JDict [("analysis_summary", JStr "Solid")])
  else if String.eqb s text_deep then Raise RecursionError
  else Raise JSONDecodeError.

Definition strict_int (v : json) : option Z :=
  match v with
  | JInt n => Some n
  | _ => None
  end.

Definition strict_str (v : json) : option string :=
  match v with
  | JStr s => Some s
  | _ => None
  end.

Fixpoint strict_strs (l : list json) : option (list string) :=
  match l with
  | [] => Some []
  | v :: rest =>
      match strict_str v, strict_strs rest with
      | Some s, Some ss => Some (s :: ss)
      | _, _ => None
      end
  end.

Definition strict_str_list (v : json) : option (list string) :=
  match v with
  | JList l => strict_strs l
  | _ => None
  end.

Fixpoint strict_strs_exact (l : list string)
    : strict_strs (map JStr l) = Some l :=
  match l return strict_strs (map JStr l) = Some l with
  | [] => eq_refl
  | s :: l' =>
      @eq_ind_r _ (Some l')
        (fun o => match o with
                  | Some ss => Some (s :: ss)
                  | None => None
                  end = Some (s :: l'))
        eq_refl _ (strict_strs_exact l')
  end.

(* Validation that accepts exactly the values of the field's type. *)
#[export] Instance libs : Libs := {|
  json_loads := loads;
  validate_int := strict_int;
  validate_str := strict_str;
  validate_str_list := strict_str_list;
  validate_int_exact := fun n => eq_refl;
  validate_str_exact := fun s => eq_refl;
  validate_str_list_exact := strict_strs_exact
|}.

(* A world whose clock shows [t0 + n] seconds at the n-th reading, whose
   model always answers [text], and where no collector body raises. *)
Definition env_answering (t0 : Z) (text : string) : Env :=
  {| now_at := fun n => timedelta_seconds (t0 + Z.of_nat n);
     generate_content := fun _ _ => LlmText text;
     body_raises := fun _ _ => false |}.

(* The same, with every collector body raising. *)
Definition env_failing_collectors (t0 : Z) (text : string) : Env :=
  {| now_at := fun n => timedelta_seconds (t0 + Z.of_nat n);
     generate_content := fun _ _ => LlmText text;
     body_raises := fun _ _ => true |}.

(* The state of a process that has just started. *)
Definition w0 : World :=
  {| cache := ∅; clock_reads := 0; llm_calls := 0; fetches := 0; trace := [] |}.

End Sample.

(* Further worlds. *)
Module Scenario.

(* The model endpoint fails on every call. *)
Definition env_model_down : Env :=
  {| now_at := fun n => timedelta_seconds (Z.of_nat n);
     generate_content := fun _ _ => LlmRaises;
     body_raises := fun _ _ => false |}.

(* Two readings of the clock are 4000 seconds apart. *)
Definition env_slow (text : string) : Env :=
  {| now_at := fun n => timedelta_seconds (4000 * Z.of_nat n);
     generate_content := fun _ _ => LlmText text;
     body_raises := fun _ _ => false |}.

(* A response that is a JSON array. *)
Definition text_array : string := "[1, 2]".

(* A response whose strengths are a number. *)
Definition text_bad_strengths : string :=
  "{" ++ Sample.dq ++ "strengths" ++ Sample.dq ++ ": 5}".

(* [json.loads] on the two texts above and on those of [Sample]. *)
Definition loads (s : string) : outcome json :=
  if String.eqb s text_array then Ok (JList [JInt 1; JInt 2])
  else if String.eqb s text_bad_strengths then
    Ok (JDict [("strengths", JInt 5)])
  else Sample.loads s.

Definition libs : Libs := {|
  json_loads := loads;
  validate_int := Sample.strict_int;
  validate_str := Sample.strict_str;
  validate_str_list := Sample.strict_str_list;
  validate_int_exact := fun n => eq_refl;
  validate_str_exact := fun s => eq_refl;
  validate_str_list_exact := Sample.strict_strs_exact
|}.

End Scenario.

(* --------------------------------------------------------------------- *)
(* Facts about the string operations                                     *)
(* --------------------------------------------------------------------- *)

Lemma lstrip_all_space (s : string) :
  PyStr.all_space s = true -> PyStr.lstrip s = "".
Proof.
  induction s as [|c s IH]; simpl; [reflexivity|].
  intros [Hc Hs]%andb_prop. rewrite Hc. now apply IH.
Qed.

Lemma rstrip_empty_all_space (s : string) :
  PyStr.rstrip s = "" -> PyStr.all_space s = true.
Proof.
  induction s as [|c s IH]; simpl; [reflexivity|].
  destruct (PyStr.rstrip s) eqn:Hr; [|discriminate].
  destruct (PyStr.isspace c) eqn:Hc; [|discriminate].
  intros _. now rewrite IH.
Qed.

Lemma lstrip_head (s : string) :
  match PyStr.lstrip s with
  | "" => PyStr.all_space s = true
  | String c _ => PyStr.isspace c = false
  end.
Proof.
  induction s as [|c s IH]; simpl; [reflexivity|].
  destruct (PyStr.isspace c) eqn:Hc; simpl; [|exact Hc].
  destruct (PyStr.lstrip s); simpl; assumption.
Qed.

(* [s.strip()] is empty exactly when [s] holds white space only. *)
Lemma strip_empty_iff (s : string) :
  PyStr.strip s = "" <-> PyStr.all_space s = true.
Proof.
  unfold PyStr.strip. split.
  - intros H. pose proof (lstrip_head s) as Hh.
    destruct (PyStr.lstrip s) as [|c r] eqn:Hl; [exact Hh|].
    apply rstrip_empty_all_space in H. simpl in H.
    rewrite Hh in H. discriminate.
  - intros H. now rewrite lstrip_all_space.
Qed.

Lemma string_app_inv_head (p a b : string) : p ++ a = p ++ b -> a = b.
Proof.
  induction p as [|c p IH]; simpl; [tauto|].
  intros H. injection H as H. now apply IH.
Qed.

Lemma string_app_inv_len (a b c d : string) :
  String.length a = String.length c -> a ++ b = c ++ d -> a = c /\ b = d.
Proof.
  revert c. induction a as [|x a IH]; intros [|y c]; simpl; try discriminate.
  - intros _ H. now split.
  - intros Hlen H. injection Hlen as Hlen. injection H as Hx H.
    destruct (IH c Hlen H) as [-> ->]. now subst.
Qed.

(* --------------------------------------------------------------------- *)
(* Running the operations                                                *)
(* --------------------------------------------------------------------- *)

Section Runs.

Context {L : Libs} (env : Env).

Lemma is_cache_valid_run (e : cache_entry) (w : World) :
  is_cache_valid env e w =
  match entry_timestamp e with
  | None => (Ok false, w)
  | Some t =>
      (Ok (now_at env (clock_reads w) - t <? timedelta_seconds CACHE_TTL), tick w)
  end.
Proof. unfold is_cache_valid. destruct (entry_timestamp e); reflexivity. Qed.

(* A valid entry answers the request: the stored env result comes back, and
   the only things that happened are one cache read and one clock read. *)
Lemma gca_hit (c : string) (m : option string) (f : option (list string))
    (w : World) (d : CompetitorIntelligence) (t : Z) :
  cache w !! cache_key c m f
    = Some {| entry_data := Some d; entry_timestamp := Some t |} ->
  now_at env (clock_reads w) - t < timedelta_seconds CACHE_TTL ->
  get_comprehensive_analysis env c m f w
    = (Ok d, tick (with_read w (cache_key c m f))).
Proof.
  intros Hc Hv.
  unfold get_comprehensive_analysis, bind, emit, cache_get. simpl.
  rewrite Hc, is_cache_valid_run. simpl.
  apply Z.ltb_lt in Hv. rewrite Hv. reflexivity.
Qed.

Lemma get_company_basic_info_run (c : string) (w : World) :
  get_company_basic_info env c w = (Ok (basic_info_at env c w), entered w BasicInfo c).
Proof.
  unfold get_company_basic_info, basic_info_at, try_except, bind, enter_body, ret.
  destruct (body_raises env (fetches w) BasicInfo); reflexivity.
Qed.

Lemma get_recent_news_run (c : string) (w : World) :
  get_recent_news env c w = (Ok (recent_news_at env c w), after_news env c w).
Proof.
  unfold get_recent_news, recent_news_at, after_news, try_except, bind,
    enter_body, now, ret.
  destruct (body_raises env (fetches w) RecentNews); reflexivity.
Qed.

Lemma get_market_data_run (c : string) (w : World) :
  get_market_data env c w = (Ok (market_data_at env w), entered w MarketData c).
Proof.
  unfold get_market_data, market_data_at, try_except, bind, enter_body, ret.
  destruct (body_raises env (fetches w) MarketData); reflexivity.
Qed.

Lemma analyze_with_ai_run (data : CollectedData) (f : option (list string))
    (w : World) :
  analyze_with_ai env data f w =
  let p := {| prompt_data := data;
              prompt_focus := or_list f ["comprehensive analysis"] |} in
  match generate_content env (llm_calls w) p with
  | LlmRaises => (Raise (HTTPException 500 "AI analysis failed" None), asked w p)
  | LlmText text => (insights_of data text, asked w p)
  end.
Proof.
  unfold analyze_with_ai, insights_of, try_except, bind, generate, ret, raise,
    lift. simpl.
  destruct (generate_content env (llm_calls w) _) as [text|]; [|reflexivity].
  destruct (json_loads (PyStr.strip text)) as [v|[]]; reflexivity.
Qed.

(* What generate_fresh does, whatever the collector bodies do: the three
   collectors are called and return, the model is asked once, and the
   result is stored env only when the insights could be assembled. *)
Lemma generate_fresh_run (key c : string) (m : option string)
    (f : option (list string)) (w : World) :
  generate_fresh env key c m f w =
    let p := prompt_of env c m f w in
    let w4 := asked (collected_world env c w) p in
    match generate_content env (llm_calls w) p with
    | LlmRaises =>
        (Raise (HTTPException 500 "Analysis failed: "
                  (Some (HTTPException 500 "AI analysis failed" None))), w4)
    | LlmText text =>
        match assembled_of c (collected_data env c m f w) text with
        | Ok r => (Ok r, stored env w4 key r)
        | Raise e => (Raise (HTTPException 500 "Analysis failed: " (Some e)), w4)
        end
    end.
Proof.
  unfold generate_fresh, try_except, bind.
  rewrite get_company_basic_info_run, get_recent_news_run,
    get_market_data_run, analyze_with_ai_run.
  cbv zeta. fold (collected_data env c m f w) (collected_world env c w) (prompt_of env c m f w).
  replace (llm_calls (collected_world env c w)) with (llm_calls w)
    by (unfold collected_world, after_news, entered, tick;
        destruct (body_raises env _ RecentNews); reflexivity).
  destruct (generate_content env (llm_calls w) _) as [text|]; [|reflexivity].
  unfold assembled_of, lift.
  destruct (insights_of _ text) as [v|e]; [|reflexivity].
  destruct (assemble c v); reflexivity.
Qed.

Lemma collected_world_trace (c : string) (w : World) :
  trace (collected_world env c w)
  = (trace w ++ [EvCollector BasicInfo c; EvCollector RecentNews c;
                 EvCollector MarketData c])%list.
Proof.
  unfold collected_world, after_news, entered, tick. cbn [fetches].
  destruct (body_raises env _ RecentNews); cbn [trace];
    rewrite <- !app_assoc; reflexivity.
Qed.

Lemma collected_world_cache (c : string) (w : World) :
  cache (collected_world env c w) = cache w.
Proof.
  unfold collected_world, after_news, entered, tick. cbn [fetches].
  destruct (body_raises env _ RecentNews); reflexivity.
Qed.

Lemma collected_name (c : string) (m : option string)
    (f : option (list string)) (w : World) :
  dict_get (basic_info (collected_data env c m f w)) "name" "company" = c.
Proof.
  unfold collected_data, basic_info_at. cbn [basic_info].
  destruct (body_raises env (fetches w) BasicInfo); reflexivity.
Qed.

(* The whole of get_comprehensive_analysis, by what the cache holds. *)
Lemma gca_run (c : string) (m : option string) (f : option (list string))
    (w : World) :
  get_comprehensive_analysis env c m f w =
    let key := cache_key c m f in
    let w1 := with_read w key in
    match cache w !! key with
    | None => generate_fresh env key c m f w1
    | Some e =>
        match entry_timestamp e with
        | None => generate_fresh env key c m f w1
        | Some t =>
            if now_at env (clock_reads w) - t <? timedelta_seconds CACHE_TTL
            then match entry_data e with
                 | Some d => (Ok d, tick w1)
                 | None => (Raise KeyError, tick w1)
                 end
            else generate_fresh env key c m f (tick w1)
        end
    end.
Proof.
  unfold get_comprehensive_analysis, bind, emit, cache_get.
  cbn [cache]. fold (with_read w (cache_key c m f)).
  destruct (cache w !! cache_key c m f) as [e|]; [|reflexivity].
  rewrite is_cache_valid_run. cbn [with_read clock_reads].
  destruct e as [dt [t|]]; cbn [entry_timestamp entry_data]; [|reflexivity].
  destruct (_ <? _); [|reflexivity].
  destruct dt; reflexivity.
Qed.

(* A result that was returned is what the cache holds under the key. *)
Lemma gca_ok_cached (c : string) (m : option string) (f : option (list string))
    (w w' : World) (r : CompetitorIntelligence) :
  get_comprehensive_analysis env c m f w = (Ok r, w') ->
  exists t, cache w' !! cache_key c m f
            = Some {| entry_data := Some r; entry_timestamp := Some t |}.
Proof.
  rewrite gca_run. cbv zeta.
  assert (Hfresh : forall w0,
    generate_fresh env (cache_key c m f) c m f w0 = (Ok r, w') ->
    exists t, cache w' !! cache_key c m f
              = Some {| entry_data := Some r; entry_timestamp := Some t |}).
  { intros w0. rewrite generate_fresh_run. cbv zeta.
    destruct (generate_content env _ _) as [text|]; [|discriminate].
    destruct (assembled_of c _ _) as [r'|]; [|discriminate].
    intros H. injection H as -> <-. eexists.
    unfold stored. cbn [cache]. apply lookup_insert_eq. }
  destruct (cache w !! cache_key c m f) as [[dt [t|]]|] eqn:Hc;
    cbn [entry_timestamp entry_data]; try apply Hfresh.
  destruct (_ <? _); [|apply Hfresh].
  destruct dt as [d|]; [|discriminate].
  intros H. injection H as -> <-. exists t. exact Hc.
Qed.

(* What generate_fresh leaves behind: the three collector calls and the
   model call, then at most one write, under [key]; no other key of the
   cache changes. *)
Lemma generate_fresh_effects (key c : string) (m : option string)
    (f : option (list string)) (w : World) :
  exists tail,
    trace (snd (generate_fresh env key c m f w))
    = (trace w ++ [EvCollector BasicInfo c; EvCollector RecentNews c;
                   EvCollector MarketData c; EvGenerate (prompt_of env c m f w)]
         ++ tail)%list /\
    (tail = [] \/ tail = [EvCacheWrite key]) /\
    (forall k, k <> key ->
       cache (snd (generate_fresh env key c m f w)) !! k = cache w !! k).
Proof.
  rewrite generate_fresh_run. cbv zeta.
  assert (Hasked : trace (asked (collected_world env c w) (prompt_of env c m f w))
                   = (trace w ++ [EvCollector BasicInfo c; EvCollector RecentNews c;
                                  EvCollector MarketData c;
                                  EvGenerate (prompt_of env c m f w)] ++ [])%list).
  { unfold asked. cbn [trace]. rewrite collected_world_trace, app_nil_r.
    rewrite <- app_assoc. reflexivity. }
  assert (Hcache : cache (asked (collected_world env c w) (prompt_of env c m f w)) = cache w).
  { unfold asked. cbn [cache]. apply collected_world_cache. }
  destruct (generate_content env _ _) as [text|].
  - destruct (assembled_of c _ _) as [r|e]; cbn [snd].
    + exists [EvCacheWrite key]. split; [|split; [now right|]].
      * unfold stored. cbn [trace]. rewrite Hasked, app_nil_r.
        rewrite <- !app_assoc. reflexivity.
      * intros k Hk. unfold stored. cbn [cache].
        rewrite lookup_insert_ne by congruence. now rewrite Hcache.
    + exists []. split; [exact Hasked|]. split; [now left|].
      intros k _. now rewrite Hcache.
  - cbn [snd]. exists []. split; [exact Hasked|]. split; [now left|].
    intros k _. now rewrite Hcache.
Qed.

End Runs.

(* --------------------------------------------------------------------- *)
(* The claims                                                            *)
(* --------------------------------------------------------------------- *)

(** C5. For every cache entry that carries a creation timestamp and every
    reading of the clock, is_cache_valid answers true exactly when the
    time read minus the timestamp is strictly below the TTL, and the TTL
    is the constant of 3600 seconds. *)
Theorem is_cache_valid_iff_within_ttl (env : Env) (e : cache_entry) (t : Z)
    (w : World) :
  entry_timestamp e = Some t ->
  CACHE_TTL = 3600 /\
  (fst (is_cache_valid env e w) = Ok true
   <-> now_at env (clock_reads w) - t < timedelta_seconds 3600).
Proof.
  intros Ht. split; [reflexivity|].
  rewrite is_cache_valid_run, Ht. simpl. unfold CACHE_TTL.
  split.
  - intros H. injection H as H. now apply Z.ltb_lt.
  - intros H. apply Z.ltb_lt in H. now rewrite H.
Qed.

Lemma is_cache_valid_iff_within_ttl_witness :
  let e := {| entry_data := None; entry_timestamp := Some 5000000 |} in
  CACHE_TTL = 3600 /\
  (fst (is_cache_valid (Sample.env_answering 3604 "") e Sample.w0) = Ok true
   <-> now_at (Sample.env_answering 3604 "") 0 - 5000000 < timedelta_seconds 3600).
Proof.
  exact (is_cache_valid_iff_within_ttl (Sample.env_answering 3604 "")
           {| entry_data := None; entry_timestamp := Some 5000000 |}
           5000000 Sample.w0 eq_refl).
Defined.

(** C1. When get_comprehensive_analysis has returned a result, a second
    call with the same arguments, made while the entry under the key is
    the one the first call left and the clock is still inside the TTL
    window, returns the same result; it calls no collector and no
    generator and writes nothing to the cache (all it does is read the
    cache and the clock). *)
Theorem cached_call_repeats_result {L : Libs} (env : Env) (c : string)
    (m : option string) (f : option (list string)) (w w1 : World)
    (r : CompetitorIntelligence) :
  get_comprehensive_analysis env c m f w = (Ok r, w1) ->
  exists t,
    cache w1 !! cache_key c m f
      = Some {| entry_data := Some r; entry_timestamp := Some t |} /\
    forall w2,
      cache w2 !! cache_key c m f = cache w1 !! cache_key c m f ->
      now_at env (clock_reads w2) - t < timedelta_seconds CACHE_TTL ->
      exists w2',
        get_comprehensive_analysis env c m f w2 = (Ok r, w2') /\
        cache w2' = cache w2 /\
        llm_calls w2' = llm_calls w2 /\
        fetches w2' = fetches w2 /\
        trace w2' = (trace w2 ++ [EvCacheRead (cache_key c m f)])%list.
Proof.
  intros H1. destruct (gca_ok_cached env c m f w w1 r H1) as [t Ht].
  exists t. split; [exact Ht|].
  intros w2 Hsame Hfresh. rewrite Ht in Hsame.
  eexists. split; [apply (gca_hit env c m f w2 r t Hsame Hfresh)|].
  repeat split.
Qed.

(* A first call at time 0 and a second one in the world the first left. *)
Lemma cached_call_repeats_result_witness :
  let env := Sample.env_answering 0 Sample.text_summary_only in
  let key := cache_key "Apple" (Some "tech") (Some ["a"; "b"]) in
  let r := {| company := "Apple"; analysis_summary := "Solid";
              strengths := []; weaknesses := []; opportunities := [];
              threats := []; market_position := "";
              recommendations := []; confidence_score := 70;
              data_sources := DATA_SOURCES |} in
  let w1 := snd (get_comprehensive_analysis (L := Sample.libs) env "Apple"
                   (Some "tech") (Some ["a"; "b"]) Sample.w0) in
  exists w2',
    get_comprehensive_analysis (L := Sample.libs) env "Apple" (Some "tech")
      (Some ["a"; "b"]) w1 = (Ok r, w2') /\
    cache w2' = cache w1 /\
    llm_calls w2' = 1%nat /\
    fetches w2' = 3%nat /\
    trace w2' = (trace w1 ++ [EvCacheRead key])%list.
Proof.
  intros env key r w1.
  destruct (cached_call_repeats_result (L := Sample.libs) env "Apple"
              (Some "tech") (Some ["a"; "b"]) Sample.w0 w1 r)
    as [t [Ht Hnext]].
  { vm_compute. reflexivity. }
  assert (Et : t = 1000000).
  { vm_compute in Ht. injection Ht as Ht. symmetry. exact Ht. }
  destruct (Hnext w1 eq_refl) as [w2' H2].
  { rewrite Et. vm_compute. reflexivity. }
  exists w2'. exact H2.
Defined.

Lemma validate_str_get {L : Libs} (d : list (string * json)) (k : string) :
  validate_str (dict_get d k (JStr "")) = supplied_or validate_str "" d k.
Proof.
  unfold dict_get, supplied_or. destruct (dict_lookup k d); [reflexivity|].
  apply validate_str_exact.
Qed.

Lemma validate_str_list_get {L : Libs} (d : list (string * json)) (k : string) :
  validate_str_list (dict_get d k (JList [])) = supplied_or validate_str_list [] d k.
Proof.
  unfold dict_get, supplied_or. destruct (dict_lookup k d); [reflexivity|].
  apply (validate_str_list_exact []).
Qed.

Lemma validate_int_get {L : Libs} (d : list (string * json)) (k : string) :
  validate_int (dict_get d k (JInt 70)) = supplied_or validate_int 70 d k.
Proof.
  unfold dict_get, supplied_or. destruct (dict_lookup k d); [reflexivity|].
  apply validate_int_exact.
Qed.

(** C4. When the result is assembled from the generator's mapping, a
    field the mapping does not have gets its fixed default: the empty
    string for analysis_summary and market_position, the empty list for
    strengths, weaknesses, opportunities, threats and recommendations, 70
    for confidence_score; a mapping with no field at all is assembled to
    the all-default result, and data_sources is the same list of four
    tags whatever the input.  For every mapping the result is fixed field
    by field: a field that is supplied has its validated value, a field
    that is missing has its default and never makes the assembly fail,
    and the assembly fails only when a supplied value is refused by the
    validation. *)
Theorem assemble_fills_defaults {L : Libs} (c : string) :
  assemble c (JDict [])
    = Ok {| company := c; analysis_summary := ""; strengths := [];
            weaknesses := []; opportunities := []; threats := [];
            market_position := ""; recommendations := [];
            confidence_score := 70;
            data_sources := ["company_data"; "news_analysis"; "market_data";
                             "ai_analysis"] |} /\
  (forall (v : json) (r : CompetitorIntelligence),
    assemble c v = Ok r ->
    data_sources r = ["company_data"; "news_analysis"; "market_data";
                      "ai_analysis"] /\
    forall d, v = JDict d ->
      (dict_lookup "analysis_summary" d = None -> analysis_summary r = "") /\
      (dict_lookup "strengths" d = None -> strengths r = []) /\
      (dict_lookup "weaknesses" d = None -> weaknesses r = []) /\
      (dict_lookup "opportunities" d = None -> opportunities r = []) /\
      (dict_lookup "threats" d = None -> threats r = []) /\
      (dict_lookup "market_position" d = None -> market_position r = "") /\
      (dict_lookup "recommendations" d = None -> recommendations r = []) /\
      (dict_lookup "confidence_score" d = None -> confidence_score r = 70)) /\
  (forall d : list (string * json),
    assemble c (JDict d)
    = match supplied_or validate_str "" d "analysis_summary",
            supplied_or validate_str_list [] d "strengths",
            supplied_or validate_str_list [] d "weaknesses",
            supplied_or validate_str_list [] d "opportunities",
            supplied_or validate_str_list [] d "threats",
            supplied_or validate_str "" d "market_position",
            supplied_or validate_str_list [] d "recommendations",
            supplied_or validate_int 70 d "confidence_score"
      with
      | Some summary, Some s, Some wk, Some o, Some t, Some mp, Some rc, Some cs =>
          Ok {| company := c; analysis_summary := summary; strengths := s;
                weaknesses := wk; opportunities := o; threats := t;
                market_position := mp; recommendations := rc;
                confidence_score := cs;
                data_sources := ["company_data"; "news_analysis"; "market_data";
                                 "ai_analysis"] |}
      | _, _, _, _, _, _, _, _ => Raise ValidationError
      end).
Proof.
  pose proof (validate_str_list_exact []) as Hnil. cbn [map] in Hnil.
  split; [|split].
  - unfold assemble, dict_get. cbn [dict_lookup].
    now rewrite validate_str_exact, Hnil, validate_int_exact.
  - intros v r Hr. destruct v as [| | | | | |d]; try discriminate.
    unfold assemble in Hr.
    destruct (validate_str (dict_get d "analysis_summary" _)) as [x1|] eqn:E1;
      [|discriminate].
    destruct (validate_str_list (dict_get d "strengths" _)) as [x2|] eqn:E2;
      [|discriminate].
    destruct (validate_str_list (dict_get d "weaknesses" _)) as [x3|] eqn:E3;
      [|discriminate].
    destruct (validate_str_list (dict_get d "opportunities" _)) as [x4|] eqn:E4;
      [|discriminate].
    destruct (validate_str_list (dict_get d "threats" _)) as [x5|] eqn:E5;
      [|discriminate].
    destruct (validate_str (dict_get d "market_position" _)) as [x6|] eqn:E6;
      [|discriminate].
    destruct (validate_str_list (dict_get d "recommendations" _)) as [x7|] eqn:E7;
      [|discriminate].
    destruct (validate_int (dict_get d "confidence_score" _)) as [x8|] eqn:E8;
      [|discriminate].
    injection Hr as <-. cbn [data_sources]. split; [reflexivity|].
    intros d' Hd. injection Hd as <-.
    unfold dict_get in *.
    repeat split; intros Hmiss; rewrite Hmiss in *; cbn;
      rewrite ?validate_str_exact, ?Hnil, ?validate_int_exact in *; congruence.
  - intros d. unfold assemble.
    rewrite !validate_str_get, !validate_str_list_get, validate_int_get.
    reflexivity.
Qed.

(* A mapping that has only a summary, and one that has only a score. *)
Lemma assemble_fills_defaults_witness :
  let d := [("analysis_summary", JStr "Solid")] in
  let r := {| company := "Apple"; analysis_summary := "Solid";
              strengths := []; weaknesses := []; opportunities := [];
              threats := []; market_position := "";
              recommendations := []; confidence_score := 70;
              data_sources := DATA_SOURCES |} in
  assemble (L := Sample.libs) "Apple" (JDict d) = Ok r /\
  data_sources r = ["company_data"; "news_analysis"; "market_data"; "ai_analysis"] /\
  strengths r = [] /\ confidence_score r = 70 /\
  assemble (L := Sample.libs) "Apple" (JDict [("confidence_score", JInt 85)])
  = Ok {| company := "Apple"; analysis_summary := "";
          strengths := []; weaknesses := []; opportunities := [];
          threats := []; market_position := "";
          recommendations := []; confidence_score := 85;
          data_sources := DATA_SOURCES |}.
Proof.
  intros d r.
  destruct (assemble_fills_defaults (L := Sample.libs) "Apple") as (_ & H & Hall).
  destruct (H (JDict d) r eq_refl) as [Hsrc Hd].
  destruct (Hd d eq_refl) as (_ & Hs & _ & _ & _ & _ & _ & Hc).
  split; [reflexivity|]. split; [exact Hsrc|].
  split; [apply Hs; reflexivity|]. split; [apply Hc; reflexivity|].
  rewrite (Hall [("confidence_score", JInt 85)]). reflexivity.
Defined.

(** C6. The key of get_comprehensive_analysis is computed from company,
    market and focus_areas alone: in every world the call reads the cache
    at company_market_focus, with the focus areas joined by a dash in the
    order given, and it writes the cache at no other key.  The order of
    the focus areas is kept: two different areas of equal length, given
    in the two orders, have different keys. *)
Theorem cache_key_of_arguments_in_order {L : Libs} (env : Env) (c : string)
    (m : option string) (f : option (list string)) (w : World) :
  let key := c ++ "_" ++ fmt_optional m ++ "_" ++ PyStr.join "-" (or_list f []) in
  let w' := snd (get_comprehensive_analysis env c m f w) in
  (exists rest,
     trace w' = (trace w ++ EvCacheRead key :: rest)%list /\
     forall k, In (EvCacheWrite k) rest -> k = key) /\
  (forall k, k <> key -> cache w' !! k = cache w !! k) /\
  (forall a b, String.length a = String.length b -> a <> b ->
     cache_key c m (Some [a; b]) <> cache_key c m (Some [b; a])).
Proof.
  intros key w'. fold (cache_key c m f) in key.
  assert (Hfresh : forall w0,
    cache w0 = cache w ->
    trace w0 = (trace w ++ [EvCacheRead key])%list ->
    (exists rest,
       trace (snd (generate_fresh env key c m f w0))
       = (trace w ++ EvCacheRead key :: rest)%list /\
       forall k, In (EvCacheWrite k) rest -> k = key) /\
    (forall k, k <> key ->
       cache (snd (generate_fresh env key c m f w0)) !! k = cache w !! k)).
  { intros w0 Hc Ht.
    destruct (generate_fresh_effects env key c m f w0) as (tail & Htr & Htail & Hk).
    split.
    - eexists. split.
      + rewrite Htr, Ht, <- app_assoc. reflexivity.
      + intros k Hin. cbn in Hin.
        destruct Hin as [Hin|[Hin|[Hin|[Hin|Hin]]]]; try discriminate.
        destruct Htail as [->| ->]; cbn in Hin; [tauto|].
        destruct Hin as [Hin|[]]. now injection Hin.
    - intros k Hne. rewrite Hk by exact Hne. now rewrite Hc. }
  split; [|split].
  - subst w'. rewrite gca_run. cbv zeta. fold key.
    destruct (cache w !! key) as [[dt [t|]]|];
      cbn [entry_timestamp entry_data]; try (apply Hfresh; reflexivity).
    destruct (_ <? _); [|apply Hfresh; reflexivity].
    exists []. split; [|intros k []].
    destruct dt; reflexivity.
  - subst w'. rewrite gca_run. cbv zeta. fold key.
    destruct (cache w !! key) as [[dt [t|]]|];
      cbn [entry_timestamp entry_data]; try (apply Hfresh; reflexivity).
    destruct (_ <? _); [|apply Hfresh; reflexivity].
    intros k _. destruct dt; reflexivity.
  - intros a b Hlen Hab Heq. unfold cache_key in Heq. cbn in Heq.
    repeat apply string_app_inv_head in Heq.
    apply string_app_inv_len in Heq; [|exact Hlen].
    now destruct Heq.
Qed.

Lemma cache_key_of_arguments_in_order_witness :
  let env := Sample.env_answering 0 Sample.text_summary_only in
  let w' := snd (get_comprehensive_analysis (L := Sample.libs) env "Apple"
                   (Some "tech") (Some ["a"; "b"]) Sample.w0) in
  (exists rest,
     trace w' = EvCacheRead "Apple_tech_a-b" :: rest /\
     forall k, In (EvCacheWrite k) rest -> k = "Apple_tech_a-b") /\
  cache w' !! "Apple_tech_b-a" = None /\
  cache_key "Apple" (Some "tech") (Some ["a"; "b"])
    <> cache_key "Apple" (Some "tech") (Some ["b"; "a"]).
Proof.
  intros env w'.
  destruct (cache_key_of_arguments_in_order (L := Sample.libs) env "Apple"
              (Some "tech") (Some ["a"; "b"]) Sample.w0) as (Hread & Hother & Hord).
  split; [exact Hread|]. split.
  - apply (Hother "Apple_tech_b-a"). discriminate.
  - apply Hord; [reflexivity | discriminate].
Defined.

(* The two orders of the same two focus areas are a permutation of each
   other and get different keys. *)
Lemma cache_key_depends_on_focus_order :
  Permutation ["a"; "b"] ["b"; "a"] /\
  cache_key "Apple" (Some "tech") (Some ["a"; "b"]) = "Apple_tech_a-b" /\
  cache_key "Apple" (Some "tech") (Some ["b"; "a"]) = "Apple_tech_b-a" /\
  cache_key "Apple" (Some "tech") (Some ["a"; "b"])
    <> cache_key "Apple" (Some "tech") (Some ["b"; "a"]).
Proof.
  split; [apply perm_swap|].
  split; [reflexivity|]. split; [reflexivity|]. discriminate.
Qed.



Lemma assemble_fallback {L : Libs} (c : string) (data : CollectedData) :
  assemble c (fallback_insights data)
  = Ok (fallback_result c (dict_get (basic_info data) "name" "company")).
Proof.
  unfold assemble, fallback_insights, fallback_result.
  unfold dict_get. cbn.
  rewrite !validate_str_exact, validate_int_exact.
  rewrite (validate_str_list_exact
             ["Market presence"; "Brand recognition"; "Innovation capability"]).
  rewrite (validate_str_list_exact
             ["Limited data available"; "Market competition"; "Economic sensitivity"]).
  rewrite (validate_str_list_exact
             ["Digital transformation"; "Market expansion"; "Strategic partnerships"]).
  rewrite (validate_str_list_exact
             ["Economic uncertainty"; "Competitive pressure"; "Regulatory changes"]).
  rewrite (validate_str_list_exact
             ["Conduct deeper market research"; "Monitor competitor activities";
              "Focus on differentiation"]).
  reflexivity.
Qed.

(** C2. For every collected data bag, if json.loads raises a
    JSONDecodeError on the response text of the language model (the text
    is not JSON), analyze_with_ai returns (does not raise) the canned
    insight payload.  The payload is fixed except for its
    analysis_summary, which names the company found in the basic_info of
    the data bag (the word company when there is none); its
    confidence_score is 60.  The result assembled from it carries the
    eight fields of the payload, next to the company and the fixed
    data_sources, and that is what get_comprehensive_analysis returns on
    a cache miss, with the requested company in the summary.  A response
    on which json.loads raises another exception (a RecursionError on a
    nesting that is too deep, a ValueError on an integer with too many
    digits) gets no canned payload: analyze_with_ai raises the HTTP error
    500 AI analysis failed. *)
Theorem fallback_on_unparsable_response {L : Libs} (env : Env) :
  (forall data f w text,
     generate_content env (llm_calls w)
       {| prompt_data := data;
          prompt_focus := or_list f ["comprehensive analysis"] |} = LlmText text ->
     json_loads (PyStr.strip text) = Raise JSONDecodeError ->
     fst (analyze_with_ai env data f w) = Ok (fallback_insights data) /\
     (exists items, fallback_insights data = JDict items /\
                    dict_lookup "confidence_score" items = Some (JInt 60)) /\
     forall c, assemble c (fallback_insights data)
               = Ok (fallback_result c (dict_get (basic_info data) "name" "company"))) /\
  (forall c m f w text,
     cache w !! cache_key c m f = None ->
     generate_content env (llm_calls w)
       (prompt_of env c m f (with_read w (cache_key c m f))) = LlmText text ->
     json_loads (PyStr.strip text) = Raise JSONDecodeError ->
     fst (get_comprehensive_analysis env c m f w) = Ok (fallback_result c c)) /\
  (forall data f w text e,
     generate_content env (llm_calls w)
       {| prompt_data := data;
          prompt_focus := or_list f ["comprehensive analysis"] |} = LlmText text ->
     json_loads (PyStr.strip text) = Raise e ->
     e <> JSONDecodeError ->
     fst (analyze_with_ai env data f w)
     = Raise (HTTPException 500 "AI analysis failed" None)).
Proof.
  split; [|split].
  - intros data f w text Hgen Hjson. split; [|split].
    + rewrite analyze_with_ai_run. cbv zeta. rewrite Hgen.
      unfold insights_of. now rewrite Hjson.
    + eexists. split; [reflexivity|]. reflexivity.
    + intros c. apply assemble_fallback.
  - intros c m f w text Hmiss Hgen Hjson.
    rewrite gca_run. cbv zeta. rewrite Hmiss, generate_fresh_run. cbv zeta.
    change (llm_calls (with_read w (cache_key c m f))) with (llm_calls w).
    rewrite Hgen. unfold assembled_of, insights_of.
    rewrite Hjson, assemble_fallback.
    cbn [fst]. now rewrite collected_name.
  - intros data f w text e Hgen Hjson Hne.
    rewrite analyze_with_ai_run. cbv zeta. rewrite Hgen.
    unfold insights_of. rewrite Hjson. destruct e; try reflexivity.
    now contradiction Hne.
Qed.

Lemma fallback_on_unparsable_response_witness :
  let env := Sample.env_answering 0 Sample.text_prose in
  let data := collected_data env "Apple" None None Sample.w0 in
  fst (analyze_with_ai (L := Sample.libs) env data None Sample.w0)
    = Ok (fallback_insights data) /\
  fst (get_comprehensive_analysis (L := Sample.libs) env "Apple" None None Sample.w0)
    = Ok (fallback_result "Apple" "Apple") /\
  fst (analyze_with_ai (L := Sample.libs)
         (Sample.env_answering 0 Sample.text_deep) data None Sample.w0)
    = Raise (HTTPException 500 "AI analysis failed" None).
Proof.
  intros env data.
  destruct (fallback_on_unparsable_response (L := Sample.libs) env)
    as (Hai & Hgca & _).
  destruct (fallback_on_unparsable_response (L := Sample.libs)
              (Sample.env_answering 0 Sample.text_deep)) as (_ & _ & Hdeep).
  split; [|split].
  - apply (Hai data None Sample.w0 Sample.text_prose); reflexivity.
  - apply (Hgca "Apple" None None Sample.w0 Sample.text_prose); reflexivity.
  - apply (Hdeep data None Sample.w0 Sample.text_deep RecursionError).
    + reflexivity.
    + vm_compute. reflexivity.
    + discriminate.
Defined.

(* With a response that is not JSON, the payloads returned for the data
   bags collected for Apple and for Tesla are different: no single
   payload is returned for every data bag.  And a response of 2000
   opening brackets, which is not JSON either, makes json.loads raise a
   RecursionError: analyze_with_ai raises and returns no payload. *)
Lemma fallback_payload_is_not_one_value :
  let env := Sample.env_answering 0 Sample.text_prose in
  let apple := collected_data env "Apple" None None Sample.w0 in
  let tesla := collected_data env "Tesla" None None Sample.w0 in
  @json_loads Sample.libs (PyStr.strip Sample.text_prose) = Raise JSONDecodeError /\
  fst (analyze_with_ai (L := Sample.libs) env apple None Sample.w0)
    <> fst (analyze_with_ai (L := Sample.libs) env tesla None Sample.w0) /\
  ~ (exists payload, forall data,
       fst (analyze_with_ai (L := Sample.libs) env data None Sample.w0) = Ok payload) /\
  @json_loads Sample.libs (PyStr.strip Sample.text_deep) = Raise RecursionError /\
  fst (analyze_with_ai (L := Sample.libs)
         (Sample.env_answering 0 Sample.text_deep) apple None Sample.w0)
    = Raise (HTTPException 500 "AI analysis failed" None).
Proof.
  intros env apple tesla.
  assert (Hne : fst (analyze_with_ai (L := Sample.libs) env apple None Sample.w0)
                <> fst (analyze_with_ai (L := Sample.libs) env tesla None Sample.w0)).
  { vm_compute. discriminate. }
  split; [reflexivity|]. split; [exact Hne|]. split.
  - intros [payload H]. apply Hne. now rewrite (H apple), (H tesla).
  - split; vm_compute; reflexivity.
Qed.

Lemma assemble_score {L : Libs} (c : string) (d : list (string * json))
    (r : CompetitorIntelligence) :
  assemble c (JDict d) = Ok r ->
  match dict_lookup "confidence_score" d with
  | Some v => validate_int v = Some (confidence_score r)
  | None => confidence_score r = 70
  end.
Proof.
  unfold assemble.
  destruct (validate_str _); [|discriminate].
  do 4 (destruct (validate_str_list _); [|discriminate]).
  destruct (validate_str _); [|discriminate].
  destruct (validate_str_list _); [|discriminate].
  destruct (validate_int _) as [cs|] eqn:E; [|discriminate].
  intros H. injection H as <-. cbn [confidence_score].
  unfold dict_get in E.
  destruct (dict_lookup "confidence_score" d); [exact E|].
  rewrite validate_int_exact in E. congruence.
Qed.

Lemma generate_fresh_in_range {L : Libs} (env : Env) (key c : string)
    (m : option string) (f : option (list string)) (w w' : World)
    (res : outcome CompetitorIntelligence) :
  scores_in_range env -> cache_in_range w ->
  generate_fresh env key c m f w = (res, w') ->
  cache_in_range w' /\ forall r, res = Ok r -> 0 <= confidence_score r <= 100.
Proof.
  intros Hs Hc. rewrite generate_fresh_run. cbv zeta.
  assert (Hkeep : cache_in_range (asked (collected_world env c w) (prompt_of env c m f w))).
  { intros k e d. unfold asked. cbn [cache]. rewrite collected_world_cache. apply Hc. }
  destruct (generate_content env _ _) as [text|] eqn:Hgen.
  2:{ intros H. injection H as <- <-. split; [exact Hkeep|discriminate]. }
  destruct (assembled_of c _ _) as [r|e] eqn:Ha.
  2:{ intros H. injection H as <- <-. split; [exact Hkeep|discriminate]. }
  assert (Hr : 0 <= confidence_score r <= 100).
  { unfold assembled_of, insights_of in Ha.
    destruct (json_loads (PyStr.strip text)) as [v|e] eqn:Hj.
    - destruct v as [| | | | | |d]; try discriminate.
      pose proof (assemble_score c d r Ha) as Hsc.
      destruct (dict_lookup "confidence_score" d) as [v|] eqn:Hl.
      + exact (Hs _ _ _ _ _ _ Hgen Hj Hl Hsc).
      + rewrite Hsc. lia.
    - destruct e; try discriminate.
      rewrite assemble_fallback in Ha. injection Ha as <-. cbn. lia. }
  intros H. injection H as <- <-. split.
  - intros k e d. unfold stored. cbn [cache].
    destruct (decide (key = k)) as [->|Hne].
    + rewrite lookup_insert_eq. intros He. injection He as <-. cbn.
      intros Hd. injection Hd as <-. exact Hr.
    + rewrite lookup_insert_ne by exact Hne. apply Hkeep.
  - intros r' Hr'. injection Hr' as <-. exact Hr.
Qed.

(** C3. The confidence_score of an assembled result is the integer the
    generator supplied, as validated and with no check of its range, and
    70 when the generator supplied none.  Hence, as long as every score
    the generator supplies lies in [0, 100] and the cache holds only
    results with such scores, every result returned by
    get_comprehensive_analysis has its confidence_score in [0, 100], and
    the cache keeps holding only such results. *)
Theorem confidence_score_is_the_supplied_one {L : Libs} (env : Env) :
  (forall c d r,
     assemble c (JDict d) = Ok r ->
     match dict_lookup "confidence_score" d with
     | Some v => validate_int v = Some (confidence_score r)
     | None => confidence_score r = 70
     end) /\
  (scores_in_range env ->
   forall c m f w res w',
     cache_in_range w ->
     get_comprehensive_analysis env c m f w = (res, w') ->
     cache_in_range w' /\
     forall r, res = Ok r -> 0 <= confidence_score r <= 100).
Proof.
  split; [intros c d r; apply assemble_score|].
  intros Hs c m f w res w' Hc. rewrite gca_run. cbv zeta.
  assert (Hread : cache_in_range (with_read w (cache_key c m f))) by exact Hc.
  assert (Htick : cache_in_range (tick (with_read w (cache_key c m f)))) by exact Hc.
  destruct (cache w !! cache_key c m f) as [[dt [t|]]|] eqn:Hl;
    cbn [entry_timestamp entry_data];
    try (apply generate_fresh_in_range; assumption).
  destruct (_ <? _); [|apply generate_fresh_in_range; assumption].
  destruct dt as [d|]; intros H; injection H as <- <-;
    (split; [exact Htick|]); [|discriminate].
  intros r Hr. injection Hr as <-. exact (Hc _ _ _ Hl eq_refl).
Qed.

Lemma confidence_score_is_the_supplied_one_witness :
  let env := Sample.env_answering 0 Sample.text_score_85 in
  exists r,
    fst (get_comprehensive_analysis (L := Sample.libs) env "Apple" None None
           Sample.w0) = Ok r /\
    confidence_score r = 85 /\ 0 <= confidence_score r <= 100.
Proof.
  intros env.
  destruct (confidence_score_is_the_supplied_one (L := Sample.libs) env)
    as [_ Hrange].
  assert (Hs : scores_in_range (L := Sample.libs) env).
  { intros n p text d v z Hgen Hj Hl Hv.
    injection Hgen as <-. vm_compute in Hj. injection Hj as <-.
    vm_compute in Hl. injection Hl as <-. injection Hv as <-. lia. }
  assert (Hc : cache_in_range Sample.w0).
  { intros k e d Hk. cbn [Sample.w0 cache] in Hk.
    rewrite lookup_empty in Hk. discriminate. }
  eexists. split; [vm_compute; reflexivity|]. split; [reflexivity|].
  refine (proj2 (Hrange Hs "Apple" None None Sample.w0 _ _ Hc eq_refl) _ _).
  vm_compute. reflexivity.
Defined.

(* A model that answers with a confidence_score of 150 gets it back in
   the result. *)
Lemma confidence_score_can_exceed_100 :
  let env := Sample.env_answering 0 Sample.text_score_150 in
  exists r,
    fst (get_comprehensive_analysis (L := Sample.libs) env "Apple" None None
           Sample.w0) = Ok r /\
    confidence_score r = 150 /\
    ~ (0 <= confidence_score r <= 100).
Proof.
  intros env. eexists. split; [vm_compute; reflexivity|].
  split; [reflexivity|]. cbn. lia.
Qed.

(** C7. A collector whose body raises does not raise itself: the failure
    is caught inside it and a stand-in is returned for that source.  For
    the basic info and the market data the stand-in is a bag tagged with
    the key error; for the recent news it is the empty list.  Whatever
    the collector bodies do, a request that misses the cache goes on to
    call the three collectors and then the generator. *)
Theorem collector_failure_is_contained {L : Libs} (env : Env) (c : string)
    (w : World) :
  (body_raises env (fetches w) BasicInfo = true ->
   fst (get_company_basic_info env c w)
   = Ok [ ("name", c); ("error", "Could not fetch basic info") ]) /\
  (body_raises env (fetches w) MarketData = true ->
   fst (get_market_data env c w)
   = Ok [ ("error", "Could not fetch market data") ]) /\
  (body_raises env (fetches w) RecentNews = true ->
   fst (get_recent_news env c w) = Ok []) /\
  ((exists b, fst (get_company_basic_info env c w) = Ok b) /\
   (exists n, fst (get_recent_news env c w) = Ok n) /\
   (exists b, fst (get_market_data env c w) = Ok b)) /\
  (forall m f,
     cache w !! cache_key c m f = None ->
     exists p tail,
       trace (snd (get_comprehensive_analysis env c m f w))
       = (trace w ++ [EvCacheRead (cache_key c m f); EvCollector BasicInfo c;
                      EvCollector RecentNews c; EvCollector MarketData c;
                      EvGenerate p] ++ tail)%list).
Proof.
  rewrite get_company_basic_info_run, get_recent_news_run, get_market_data_run.
  unfold basic_info_at, recent_news_at, market_data_at. cbn [fst].
  split; [intros ->; reflexivity|].
  split; [intros ->; reflexivity|].
  split; [intros ->; reflexivity|].
  split; [repeat split; eexists; reflexivity|].
  intros m f Hmiss. rewrite gca_run. cbv zeta. rewrite Hmiss.
  destruct (generate_fresh_effects env (cache_key c m f) c m f
              (with_read w (cache_key c m f))) as (tail & Htr & _ & _).
  eexists. exists tail. rewrite Htr. unfold with_read. cbn [trace].
  rewrite <- !app_assoc. reflexivity.
Qed.

(* All three bodies raise, the model answers with prose: the request
   still returns a result. *)
Lemma collector_failure_is_contained_witness :
  let env := Sample.env_failing_collectors 0 Sample.text_prose in
  fst (get_company_basic_info env "Apple" Sample.w0)
    = Ok [ ("name", "Apple"); ("error", "Could not fetch basic info") ] /\
  fst (get_market_data env "Apple" Sample.w0)
    = Ok [ ("error", "Could not fetch market data") ] /\
  fst (get_recent_news env "Apple" Sample.w0) = Ok [] /\
  (exists p tail,
     trace (snd (get_comprehensive_analysis (L := Sample.libs) env "Apple" None
                   None Sample.w0))
     = ([EvCacheRead "Apple_None_"; EvCollector BasicInfo "Apple";
         EvCollector RecentNews "Apple"; EvCollector MarketData "Apple";
         EvGenerate p] ++ tail)%list) /\
  fst (get_comprehensive_analysis (L := Sample.libs) env "Apple" None None
         Sample.w0) = Ok (fallback_result "Apple" "Apple").
Proof.
  intros env.
  destruct (collector_failure_is_contained (L := Sample.libs) env "Apple" Sample.w0)
    as (Hb & Hm & Hn & _ & Hgo).
  split; [apply Hb; reflexivity|].
  split; [apply Hm; reflexivity|].
  split; [apply Hn; reflexivity|].
  split; [apply (Hgo None None); reflexivity|].
  vm_compute. reflexivity.
Defined.

(* The stand-in of get_recent_news is the empty list: it holds no bag, so
   nothing in it is tagged with an error. *)
Lemma failed_news_stand_in_has_no_error_tag :
  let env := Sample.env_failing_collectors 0 Sample.text_prose in
  body_raises env (fetches Sample.w0) RecentNews = true /\
  fst (get_recent_news env "Apple" Sample.w0) = Ok [] /\
  ~ (exists out item,
       fst (get_recent_news env "Apple" Sample.w0) = Ok out /\
       In item out /\ dict_lookup "error" item <> None).
Proof.
  intros env. split; [reflexivity|]. split; [reflexivity|].
  intros (out & item & Hout & Hin & _).
  vm_compute in Hout. injection Hout as <-. destruct Hin.
Qed.

(** C8. A request whose company name is empty or holds white space only
    is rejected by the analyze endpoint with the HTTP status 400, in the
    world as it was: no cache access, no collector call and no generator
    call has happened.  A request that passes this check and fails later
    fails with the status 500. *)
Theorem blank_company_is_rejected {L : Libs} (env : Env)
    (request : CompanyAnalysisRequest) (w : World) :
  (PyStr.all_space (req_company request) = true ->
   analyze_competitor env request w
   = (Raise (HTTPException 400 "Company name is required" None), w)) /\
  (PyStr.all_space (req_company request) = false ->
   forall e w', analyze_competitor env request w = (Raise e, w') ->
                e = HTTPException 500 "Analysis failed" None).
Proof.
  unfold analyze_competitor. split.
  - intros Hblank. apply strip_empty_iff in Hblank. now rewrite Hblank.
  - intros Hname e w'.
    destruct (String.eqb (PyStr.strip (req_company request)) "") eqn:E.
    + apply String.eqb_eq, strip_empty_iff in E. congruence.
    + unfold try_except, raise.
      destruct (get_comprehensive_analysis env _ _ _ w) as [[r|e0] w0];
        [discriminate|].
      intros H. now injection H as <- _.
Qed.

Lemma blank_company_is_rejected_witness :
  let env := Sample.env_answering 0 Sample.text_prose in
  let request := {| req_company := "   "; req_market := Some "tech";
                    req_focus_areas := None |} in
  analyze_competitor (L := Sample.libs) env request Sample.w0
  = (Raise (HTTPException 400 "Company name is required" None), Sample.w0).
Proof.
  intros env request.
  apply (proj1 (blank_company_is_rejected (L := Sample.libs) env request Sample.w0)).
  reflexivity.
Defined.

Lemma prefix_iff_app (p s : string) :
  String.prefix p s = true <-> exists rest, s = p ++ rest.
Proof.
  revert s. induction p as [|a p IH]; intros s.
  - split; [intros _; now exists s | intros _; destruct s; reflexivity].
  - destruct s as [|b s]; simpl.
    + split; [discriminate | intros [rest H]; discriminate].
    + destruct (ascii_dec a b) as [->|Hne].
      * rewrite IH. split; intros [rest H]; exists rest.
        -- now rewrite H.
        -- now injection H.
      * split; [discriminate | intros [rest H]; injection H as H _; congruence].
Qed.

Lemma startswith_any_iff (s : string) (ps : list string) :
  PyStr.startswith_any s ps = true
  <-> exists p rest, In p ps /\ s = p ++ rest.
Proof.
  unfold PyStr.startswith_any, PyStr.startswith. rewrite existsb_exists.
  split.
  - intros (p & Hin & Hp). apply prefix_iff_app in Hp as [rest ->]. eauto.
  - intros (p & rest & Hin & ->). exists p. split; [exact Hin|].
    apply prefix_iff_app. eauto.
Qed.

Lemma telex_webhook_routed {L : Libs} (env : Env) (data : list (string * json))
    (raw : string) (w : World) :
  dict_get data "content" (JStr "") = JStr raw ->
  fst (telex_webhook env (Some (JDict data)) w)
  = Ok (routed env data (PyStr.strip raw) w).
Proof.
  intros Hc. unfold telex_webhook, webhook_body, routed, try_except.
  rewrite Hc.
  destruct (PyStr.startswith_any _ COMMANDS); [|reflexivity].
  destruct (PyStr.split_space_1 (PyStr.strip raw)) as [|h [|arg rest]];
    try reflexivity.
  unfold try_except, bind, ret.
  destruct (get_comprehensive_analysis env (PyStr.strip arg) None None w)
    as [[a|e] w']; reflexivity.
Qed.

(** C10. The webhook chooses the analysis path by a prefix test on the
    trimmed, lower-cased content, with no word boundary: a content is
    handled as an analysis command exactly when its trimmed, lower-cased
    form is analyze, check or research followed by any characters.  Such
    a content is answered with the analysis of what follows its first
    space (or the apology when that analysis fails), or with the request
    to name a company when it has no space; it is never answered with the
    greeting.  Every other content gets the fixed greeting, and only
    those do. *)
Theorem webhook_routes_by_prefix {L : Libs} (env : Env)
    (data : list (string * json)) (raw : string) (w : World) :
  dict_get data "content" (JStr "") = JStr raw ->
  let content := PyStr.strip raw in
  let is_command :=
    exists cmd rest, In cmd ["analyze"; "check"; "research"] /\
                     PyStr.lower content = cmd ++ rest in
  exists resp,
    fst (telex_webhook env (Some (JDict data)) w) = Ok resp /\
    (is_command ->
     match PyStr.split_space_1 content with
     | _ :: arg :: _ =>
         match fst (get_comprehensive_analysis env (PyStr.strip arg) None None w) with
         | Ok analysis => response resp = render analysis
         | Raise _ => response resp = MsgApology (PyStr.strip arg)
         end
     | _ => response resp = MsgNeedCompany
     end) /\
    (response resp = MsgGreeting <-> ~ is_command).
Proof.
  intros Hc content is_command.
  exists (routed env data content w).
  split; [apply telex_webhook_routed, Hc|].
  assert (Hcmd : is_command
                 <-> PyStr.startswith_any (PyStr.lower content) COMMANDS = true).
  { symmetry. apply startswith_any_iff. }
  unfold routed.
  destruct (PyStr.startswith_any (PyStr.lower content) COMMANDS) eqn:Hp.
  - split.
    + intros _.
      destruct (PyStr.split_space_1 content) as [|h [|arg rest]]; try reflexivity.
      destruct (fst (get_comprehensive_analysis env _ None None w)); reflexivity.
    + split.
      * intros Hg. exfalso.
        destruct (PyStr.split_space_1 content) as [|h [|arg rest]];
          try discriminate.
        destruct (fst (get_comprehensive_analysis env _ None None w));
          discriminate.
      * intros Hn. exfalso. apply Hn, Hcmd. reflexivity.
  - split.
    + intros Hi. apply Hcmd in Hi. discriminate.
    + split; [|reflexivity].
      intros _ Hi. apply Hcmd in Hi. discriminate.
Qed.

(* The content "Checking on something" is an analysis command: the
   company analysed is "on something". *)
Lemma webhook_routes_by_prefix_witness :
  let env := Sample.env_answering 0 Sample.text_prose in
  let data := [("content", JStr "  Checking on something ");
               ("channel_id", JStr "c-1")] in
  exists resp,
    fst (telex_webhook (L := Sample.libs) env (Some (JDict data)) Sample.w0)
      = Ok resp /\
    response resp = render (fallback_result "on something" "on something") /\
    response resp <> MsgGreeting.
Proof.
  intros env data.
  destruct (webhook_routes_by_prefix (L := Sample.libs) env data
              "  Checking on something " Sample.w0 eq_refl)
    as (resp & Hrun & Hcmd & Hgreet).
  assert (Hi : exists cmd rest,
             In cmd ["analyze"; "check"; "research"] /\
             PyStr.lower (PyStr.strip "  Checking on something ") = cmd ++ rest).
  { exists "check", "ing on something". split; [right; left|]; reflexivity. }
  exists resp. split; [exact Hrun|]. split.
  - exact (Hcmd Hi).
  - intros Hg. apply Hgreet in Hg. exact (Hg Hi).
Defined.

(* --------------------------------------------------------------------- *)
(* More about the orchestrator                                           *)
(* --------------------------------------------------------------------- *)

Section Orchestrator.

Context {L : Libs} (env : Env).

Lemma assemble_company (c : string) (v : json) (r : CompetitorIntelligence) :
  assemble c v = Ok r -> company r = c /\ data_sources r = DATA_SOURCES.
Proof.
  unfold assemble. destruct v as [| | | | | |d]; try discriminate.
  destruct (validate_str _); [|discriminate].
  do 4 (destruct (validate_str_list _); [|discriminate]).
  destruct (validate_str _); [|discriminate].
  destruct (validate_str_list _); [|discriminate].
  destruct (validate_int _); [|discriminate].
  intros H. injection H as <-. split; reflexivity.
Qed.

Lemma collected_world_counts (c : string) (w : World) :
  llm_calls (collected_world env c w) = llm_calls w /\
  fetches (collected_world env c w) = (3 + fetches w)%nat.
Proof.
  unfold collected_world, after_news, entered, tick. cbn [fetches].
  destruct (body_raises env _ RecentNews); split; reflexivity.
Qed.

(* The two ways generate_fresh can end. *)
Lemma generate_fresh_summary (key c : string) (m : option string)
    (f : option (list string)) (w : World) :
  let run := generate_fresh env key c m f w in
  llm_calls (snd run) = S (llm_calls w) /\
  fetches (snd run) = (3 + fetches w)%nat /\
  ((exists e, fst run = Raise (HTTPException 500 "Analysis failed: " (Some e)) /\
              cache (snd run) = cache w) \/
   (exists r t, fst run = Ok r /\
                cache (snd run)
                = <[key := {| entry_data := Some r; entry_timestamp := Some t |}]>
                    (cache w) /\
                company r = c /\ data_sources r = DATA_SOURCES)).
Proof.
  cbv zeta. rewrite generate_fresh_run. cbv zeta.
  destruct (collected_world_counts c w) as [Hl Hf].
  destruct (generate_content env _ _) as [text|].
  - destruct (assembled_of c _ _) as [r|e] eqn:Ha;
      cbn [fst snd stored asked llm_calls fetches cache].
    + rewrite Hl, Hf, collected_world_cache. repeat split.
      right. exists r. eexists. split; [reflexivity|]. split; [reflexivity|].
      unfold assembled_of in Ha.
      destruct (insights_of _ text) as [v|]; [|discriminate].
      exact (assemble_company _ _ _ Ha).
    + rewrite Hl, Hf, collected_world_cache. repeat split.
      left. eauto.
  - cbn [fst snd asked llm_calls fetches cache].
    rewrite Hl, Hf, collected_world_cache. repeat split. left. eauto.
Qed.

(* The three ways get_comprehensive_analysis can go. *)
Lemma gca_summary (c : string) (m : option string) (f : option (list string))
    (w : World) :
  let key := cache_key c m f in
  let run := get_comprehensive_analysis env c m f w in
  (exists d t, cache w !! key
               = Some {| entry_data := Some d; entry_timestamp := Some t |} /\
               now_at env (clock_reads w) - t < timedelta_seconds CACHE_TTL /\
               run = (Ok d, tick (with_read w key))) \/
  (exists t, cache w !! key
             = Some {| entry_data := None; entry_timestamp := Some t |} /\
             run = (Raise KeyError, tick (with_read w key))) \/
  (exists w1, cache w1 = cache w /\ llm_calls w1 = llm_calls w /\
              fetches w1 = fetches w /\
              run = generate_fresh env key c m f w1).
Proof.
  cbv zeta. rewrite gca_run. cbv zeta.
  destruct (cache w !! cache_key c m f) as [[dt [t|]]|] eqn:Hc;
    cbn [entry_timestamp entry_data].
  - destruct (_ <? _) eqn:Hv.
    + apply Z.ltb_lt in Hv. destruct dt as [d|].
      * left. exists d, t. repeat split. exact Hv.
      * right. left. exists t. split; reflexivity.
    + right. right. exists (tick (with_read w (cache_key c m f))). repeat split.
  - right. right. exists (with_read w (cache_key c m f)). repeat split.
  - right. right. exists (with_read w (cache_key c m f)). repeat split.
Qed.

End Orchestrator.

(* A call that raises has left the cache as it was. *)
Lemma gca_failure {L : Libs} (env : Env) (c : string)
    (m : option string) (f : option (list string)) (w w' : World) (e : exn) :
  get_comprehensive_analysis env c m f w = (Raise e, w') ->
  cache w' = cache w /\
  (e = KeyError \/
   exists cause, e = HTTPException 500 "Analysis failed: " (Some cause)).
Proof.
  intros Hrun.
  destruct (gca_summary env c m f w) as [(d & t & _ & _ & H)|[(t & _ & H)|(w1 & Hc & _ & _ & H)]];
    cbv zeta in H; rewrite Hrun in H.
  - discriminate.
  - injection H as -> ->. split; [reflexivity | now left].
  - destruct (generate_fresh_summary env (cache_key c m f) c m f w1)
      as (_ & _ & [(e0 & He & Hk)|(r & t & Hr & _)]);
      cbv zeta in *; rewrite <- H in *; cbn [fst snd] in *.
    + injection He as ->. split; [congruence | right; eauto].
    + discriminate.
Qed.


(** X2. A call of get_comprehensive_analysis that raises has written
    nothing: the cache is as it was.  What it raises is the HTTP error 500
    whose detail starts with Analysis failed and names the cause, or the
    KeyError of an entry that holds a timestamp but no data. *)
Theorem failed_call_writes_nothing {L : Libs} (env : Env) (c : string)
    (m : option string) (f : option (list string)) (w w' : World) (e : exn) :
  get_comprehensive_analysis env c m f w = (Raise e, w') ->
  cache w' = cache w /\
  (e = KeyError \/
   exists cause, e = HTTPException 500 "Analysis failed: " (Some cause)).
Proof. apply gca_failure. Qed.

Lemma failed_call_writes_nothing_witness :
  let env := {| now_at := fun _ => 0;
                generate_content := fun _ _ => LlmRaises;
                body_raises := fun _ _ => false |} in
  exists w',
    get_comprehensive_analysis (L := Sample.libs) env "Apple" None None Sample.w0
    = (Raise (HTTPException 500 "Analysis failed: "
                (Some (HTTPException 500 "AI analysis failed" None))), w') /\
    cache w' = cache Sample.w0.
Proof.
  intros env. eexists. split; [vm_compute; reflexivity|].
  eapply (failed_call_writes_nothing (L := Sample.libs) env "Apple" None None).
  vm_compute. reflexivity.
Defined.

Section Steps.

Context {L : Libs} (env : Env).

(* A call leaves the cache as it was or puts its result under its key. *)
Lemma gca_cache_step (c : string) (m : option string) (f : option (list string))
    (w : World) :
  let run := get_comprehensive_analysis env c m f w in
  cache (snd run) = cache w \/
  exists r t, fst run = Ok r /\ company r = c /\ data_sources r = DATA_SOURCES /\
              cache (snd run)
              = <[cache_key c m f := {| entry_data := Some r;
                                        entry_timestamp := Some t |}]> (cache w).
Proof.
  cbv zeta.
  destruct (gca_summary env c m f w)
    as [(d & t & _ & _ & H)|[(t & _ & H)|(w1 & Hc & _ & _ & H)]];
    cbv zeta in H; rewrite H; try (left; reflexivity).
  destruct (generate_fresh_summary env (cache_key c m f) c m f w1)
    as (_ & _ & [(e0 & _ & Hk)|(r & t & Hr & Hk & Hco & Hds)]); cbv zeta in *.
  - left. congruence.
  - right. exists r, t. rewrite Hk, Hc. auto.
Qed.

Lemma analyze_competitor_world (r : CompanyAnalysisRequest) (w : World) :
  snd (analyze_competitor env r w) = w \/
  snd (analyze_competitor env r w)
  = snd (get_comprehensive_analysis env (req_company r) (req_market r)
           (req_focus_areas r) w).
Proof.
  unfold analyze_competitor.
  destruct (String.eqb _ _); [left; reflexivity|].
  right. unfold try_except, raise.
  destruct (get_comprehensive_analysis env _ _ _ w) as [[a|e] w']; reflexivity.
Qed.

Lemma telex_webhook_world (request_json : option json) (w : World) :
  snd (telex_webhook env request_json w) = w \/
  exists c, snd (telex_webhook env request_json w)
            = snd (get_comprehensive_analysis env c None None w).
Proof.
  unfold telex_webhook, try_except.
  destruct request_json as [[| | | | | |data]|]; try (left; reflexivity).
  unfold webhook_body.
  destruct (dict_get data "content" (JStr "")); try (left; reflexivity).
  destruct (PyStr.startswith_any _ COMMANDS); [|left; reflexivity].
  destruct (PyStr.split_space_1 _) as [|h [|arg rest]]; try (left; reflexivity).
  right. exists (PyStr.strip arg). unfold try_except, bind, ret.
  destruct (get_comprehensive_analysis env (PyStr.strip arg) None None w)
    as [[a|e] w']; reflexivity.
Qed.

Lemma health_check_run (k : option string) (w : World) :
  health_check env k w
  = (Ok {| health_status := "healthy";
           health_timestamp := now_at env (clock_reads w);
           cache_size := size (cache w);
           gemini_configured := env_var_truthy k;
           health_version := "1.0.0" |}, tick w).
Proof. reflexivity. Qed.

(* One request leaves the cache as it was or adds the result of one
   analysis under the key of the analysed request. *)
Lemma serve_cache_step (q : request) (w : World) :
  cache (serve env q w) = cache w \/
  exists c m f r t,
    company r = c /\ data_sources r = DATA_SOURCES /\
    cache (serve env q w)
    = <[cache_key c m f := {| entry_data := Some r;
                              entry_timestamp := Some t |}]> (cache w).
Proof.
  destruct q as [r|body|k]; cbn [serve].
  - destruct (analyze_competitor_world r w) as [->| ->]; [now left|].
    destruct (gca_cache_step (req_company r) (req_market r) (req_focus_areas r) w)
      as [H|(a & t & _ & H1 & H2 & H3)]; [now left|].
    right. exists (req_company r), (req_market r), (req_focus_areas r), a, t. auto.
  - destruct (telex_webhook_world body w) as [->|[c ->]]; [now left|].
    destruct (gca_cache_step c None None w)
      as [H|(a & t & _ & H1 & H2 & H3)]; [now left|].
    right. exists c, None, None, a, t. auto.
  - left. reflexivity.
Qed.

Lemma serve_sound (q : request) (w : World) :
  cache_sound w -> cache_sound (serve env q w).
Proof.
  intros Hs. unfold cache_sound.
  destruct (serve_cache_step q w) as [->|(c & m & f & r & t & Hc & Hd & ->)];
    [exact Hs|].
  intros k e Hk. apply lookup_insert_Some in Hk as [[<- <-]|[_ Hk]].
  - exists r, t. split; [reflexivity|]. split; [exact Hd|].
    exists m, f. now rewrite Hc.
  - exact (Hs k e Hk).
Qed.

Lemma serve_all_sound (qs : list request) (w : World) :
  cache_sound w -> cache_sound (serve_all env qs w).
Proof.
  revert w. induction qs as [|q qs IH]; intros w Hs; [exact Hs|].
  cbn. apply IH, serve_sound, Hs.
Qed.

Lemma empty_cache_sound (w : World) : cache w = ∅ -> cache_sound w.
Proof. intros Hw k e Hk. rewrite Hw, lookup_empty in Hk. discriminate. Qed.

Lemma serve_size (q : request) (w : World) :
  (size (cache w) <= size (cache (serve env q w)) <= S (size (cache w)))%nat /\
  (forall k, is_Some (cache w !! k) -> is_Some (cache (serve env q w) !! k)).
Proof.
  destruct (serve_cache_step q w) as [->|(c & m & f & r & t & _ & _ & ->)].
  - split; [lia | auto].
  - rewrite map_size_insert. split.
    + destruct (cache w !! cache_key c m f); cbn; lia.
    + intros k Hk. apply lookup_insert_is_Some.
      destruct (decide (cache_key c m f = k)); auto.
Qed.

Lemma serve_all_size (qs : list request) (w : World) :
  (size (cache w) <= size (cache (serve_all env qs w))
   <= size (cache w) + length qs)%nat /\
  (forall k, is_Some (cache w !! k) -> is_Some (cache (serve_all env qs w) !! k)).
Proof.
  revert w. induction qs as [|q qs IH]; intros w; cbn [serve_all fold_left length].
  - split; [lia | auto].
  - destruct (serve_size q w) as [Hq Hk]. destruct (IH (serve env q w)) as [Hs Hks].
    unfold serve_all in *. split; [lia|]. auto.
Qed.

End Steps.

Lemma collected_world_clock {L : Libs} (env : Env) (c : string) (w : World) :
  (clock_reads w <= clock_reads (collected_world env c w))%nat.
Proof.
  unfold collected_world, after_news, entered, tick. cbn [fetches].
  destruct (body_raises env _ RecentNews); cbn; lia.
Qed.

(** X1. An entry that is stale (its age has reached the TTL) or that holds
    no timestamp is not served: the call reads the cache, calls the three
    collectors and asks the generator once more, and a result it returns
    replaces the entry, stamped with a reading of the clock taken no
    earlier than the check. *)
Theorem stale_entry_is_regenerated {L : Libs} (env : Env) (c : string)
    (m : option string) (f : option (list string)) (w : World) (e : cache_entry) :
  cache w !! cache_key c m f = Some e ->
  match entry_timestamp e with
  | Some t => timedelta_seconds CACHE_TTL <= now_at env (clock_reads w) - t
  | None => True
  end ->
  let run := get_comprehensive_analysis env c m f w in
  (exists p tail,
     trace (snd run)
     = (trace w ++ [EvCacheRead (cache_key c m f); EvCollector BasicInfo c;
                    EvCollector RecentNews c; EvCollector MarketData c;
                    EvGenerate p] ++ tail)%list) /\
  llm_calls (snd run) = S (llm_calls w) /\
  forall r, fst run = Ok r ->
    exists n, (clock_reads w <= n)%nat /\
      cache (snd run) !! cache_key c m f
      = Some {| entry_data := Some r; entry_timestamp := Some (now_at env n) |}.
Proof.
  intros Hc Hold. cbv zeta. rewrite gca_run. cbv zeta. rewrite Hc.
  assert (Hfresh : forall w1,
    trace w1 = (trace w ++ [EvCacheRead (cache_key c m f)])%list ->
    llm_calls w1 = llm_calls w ->
    (clock_reads w <= clock_reads w1)%nat ->
    let run := generate_fresh env (cache_key c m f) c m f w1 in
    (exists p tail,
       trace (snd run)
       = (trace w ++ [EvCacheRead (cache_key c m f); EvCollector BasicInfo c;
                      EvCollector RecentNews c; EvCollector MarketData c;
                      EvGenerate p] ++ tail)%list) /\
    llm_calls (snd run) = S (llm_calls w) /\
    forall r, fst run = Ok r ->
      exists n, (clock_reads w <= n)%nat /\
        cache (snd run) !! cache_key c m f
        = Some {| entry_data := Some r; entry_timestamp := Some (now_at env n) |}).
  { intros w1 Ht Hl Hn. cbv zeta. split; [|split].
    - destruct (generate_fresh_effects env (cache_key c m f) c m f w1)
        as (tail & Htr & _ & _).
      eexists. exists tail. rewrite Htr, Ht, <- !app_assoc. reflexivity.
    - destruct (generate_fresh_summary env (cache_key c m f) c m f w1)
        as (Hll & _). cbv zeta in Hll. now rewrite Hll, Hl.
    - rewrite generate_fresh_run. cbv zeta.
      destruct (generate_content env _ _) as [text|]; [|discriminate].
      destruct (assembled_of c _ _) as [r0|]; [|discriminate].
      intros r Hr. injection Hr as <-.
      exists (clock_reads (collected_world env c w1)). split.
      + pose proof (collected_world_clock env c w1). lia.
      + cbn [snd stored asked cache clock_reads]. apply lookup_insert_eq. }
  destruct (entry_timestamp e) as [t|].
  - apply Z.ltb_ge in Hold. rewrite Hold.
    apply Hfresh; cbn; try reflexivity; lia.
  - apply Hfresh; cbn; try reflexivity; lia.
Qed.

(* A first call stores its result at 4000 s; the next reading of the
   clock is 8000 s, so the second call regenerates. *)
Lemma stale_entry_is_regenerated_witness :
  let env := Scenario.env_slow Sample.text_prose in
  let w1 := snd (get_comprehensive_analysis (L := Sample.libs) env "Apple" None
                   None Sample.w0) in
  let run := get_comprehensive_analysis (L := Sample.libs) env "Apple" None None
               w1 in
  cache w1 !! "Apple_None_"
    = Some {| entry_data := Some (fallback_result "Apple" "Apple");
              entry_timestamp := Some 4000000000 |} /\
  llm_calls (snd run) = 2%nat /\
  exists n, (2 <= n)%nat /\
    cache (snd run) !! "Apple_None_"
    = Some {| entry_data := Some (fallback_result "Apple" "Apple");
              entry_timestamp := Some (now_at env n) |}.
Proof.
  intros env w1 run.
  assert (Hc : cache w1 !! cache_key "Apple" None None
               = Some {| entry_data := Some (fallback_result "Apple" "Apple");
                         entry_timestamp := Some 4000000000 |}).
  { vm_compute. reflexivity. }
  destruct (stale_entry_is_regenerated (L := Sample.libs) env "Apple" None None
              w1 _ Hc) as (_ & Hl & Hn).
  { vm_compute. discriminate. }
  split; [exact Hc|]. split; [exact Hl|].
  apply (Hn (fallback_result "Apple" "Apple")).
  vm_compute. reflexivity.
Defined.

(** X3. In a process that started with an empty cache and has answered any
    sequence of requests (analyze, webhook, health), a call of
    get_comprehensive_analysis never raises a KeyError: whatever it raises
    is the HTTP error 500 whose detail starts with Analysis failed. *)
Theorem only_http_500_after_requests {L : Libs} (env : Env) (qs : list request)
    (w : World) (c : string) (m : option string) (f : option (list string))
    (e : exn) (w' : World) :
  cache w = ∅ ->
  get_comprehensive_analysis env c m f (serve_all env qs w) = (Raise e, w') ->
  exists cause, e = HTTPException 500 "Analysis failed: " (Some cause).
Proof.
  intros Hw Hrun.
  pose proof (serve_all_sound env qs w (empty_cache_sound w Hw)) as Hs.
  destruct (gca_failure env c m f _ _ _ Hrun) as [_ [->|H]];
    [|exact H].
  exfalso.
  destruct (gca_summary env c m f (serve_all env qs w))
    as [(d & t & _ & _ & H)|[(t & Hc & _)|(w1 & _ & _ & _ & H)]];
    cbv zeta in *.
  - rewrite Hrun in H. discriminate.
  - destruct (Hs _ _ Hc) as (d & t' & He & _). discriminate.
  - destruct (generate_fresh_summary env (cache_key c m f) c m f w1)
      as (_ & _ & [(e0 & He & _)|(r & t & Hr & _)]);
      cbv zeta in *; rewrite <- H, Hrun in *; discriminate.
Qed.

Lemma only_http_500_after_requests_witness :
  let env := Scenario.env_model_down in
  let qs := [PostWebhook (Some (JDict [("content", JStr "analyze Apple")]));
             GetHealth None;
             PostAnalyze {| req_company := "Tesla"; req_market := None;
                            req_focus_areas := None |}] in
  exists w' cause,
    get_comprehensive_analysis (L := Sample.libs) env "Apple" None None
      (serve_all (L := Sample.libs) env qs Sample.w0)
    = (Raise (HTTPException 500 "Analysis failed: " (Some cause)), w').
Proof.
  intros env qs.
  destruct (get_comprehensive_analysis (L := Sample.libs) env "Apple" None None
              (serve_all (L := Sample.libs) env qs Sample.w0)) as [[r|e] w'] eqn:Hrun.
  - vm_compute in Hrun. discriminate.
  - destruct (only_http_500_after_requests (L := Sample.libs) env qs Sample.w0
                "Apple" None None e w' eq_refl Hrun) as [cause ->].
    exists w', cause. reflexivity.
Defined.

(** X4. A result that get_comprehensive_analysis returns, in a process
    that started with an empty cache and has answered any sequence of
    requests, was assembled for a request with the same cache key: it has
    the four data sources, and its company, with some market and focus
    areas, gives the key of the request it is returned for. *)
Theorem returned_result_has_the_request_key {L : Libs} (env : Env)
    (qs : list request) (w : World) (c : string) (m : option string)
    (f : option (list string)) (r : CompetitorIntelligence) (w' : World) :
  cache w = ∅ ->
  get_comprehensive_analysis env c m f (serve_all env qs w) = (Ok r, w') ->
  data_sources r = DATA_SOURCES /\
  exists m' f', cache_key (company r) m' f' = cache_key c m f.
Proof.
  intros Hw Hrun.
  pose proof (serve_all_sound env qs w (empty_cache_sound w Hw)) as Hs.
  destruct (gca_summary env c m f (serve_all env qs w))
    as [(d & t & Hc & _ & H)|[(t & _ & H)|(w1 & _ & _ & _ & H)]];
    cbv zeta in *; rewrite Hrun in H.
  - injection H as -> _.
    destruct (Hs _ _ Hc) as (d' & t' & He & Hd & m' & f' & Hk).
    injection He as <- _. split; [exact Hd|]. exists m', f'. now rewrite Hk.
  - discriminate.
  - destruct (generate_fresh_summary env (cache_key c m f) c m f w1)
      as (_ & _ & [(e0 & He & _)|(r' & t & Hr & _ & Hco & Hd)]);
      cbv zeta in *; rewrite <- H in *; cbn [fst] in *; [discriminate|].
    injection Hr as <-. split; [exact Hd|]. exists m, f. now rewrite Hco.
Qed.

(* The webhook analyses Apple; the request (Apple, market None) is then
   answered from the cache. *)
Lemma returned_result_has_the_request_key_witness :
  let env := Sample.env_answering 0 Sample.text_score_85 in
  let qs := [PostWebhook (Some (JDict [("content", JStr "analyze Apple")]))] in
  exists r w',
    get_comprehensive_analysis (L := Sample.libs) env "Apple" (Some "None") None
      (serve_all (L := Sample.libs) env qs Sample.w0) = (Ok r, w') /\
    data_sources r = DATA_SOURCES /\
    exists m' f', cache_key (company r) m' f' = "Apple_None_".
Proof.
  intros env qs. eexists. eexists. split; [vm_compute; reflexivity|].
  eapply (returned_result_has_the_request_key (L := Sample.libs) env qs Sample.w0
            "Apple" (Some "None") None); [reflexivity|].
  vm_compute. reflexivity.
Defined.

(** X5. The cache never loses an entry and grows by at most one entry per
    request: the cache_size reported by the health endpoint after any
    sequence of requests is at least the one reported before and at most
    that plus the number of requests, and every key present before is
    still present. *)
Theorem cache_size_grows_by_at_most_one {L : Libs} (env : Env)
    (qs : list request) (w : World) (k k' : option string) :
  exists h h',
    fst (health_check env k w) = Ok h /\
    fst (health_check env k' (serve_all env qs w)) = Ok h' /\
    (cache_size h <= cache_size h' <= cache_size h + length qs)%nat /\
    forall key, is_Some (cache w !! key) ->
                is_Some (cache (serve_all env qs w) !! key).
Proof.
  rewrite !health_check_run. cbn [fst].
  eexists. eexists. split; [reflexivity|]. split; [reflexivity|].
  cbn [cache_size]. apply serve_all_size.
Qed.

(** X6. One call of get_comprehensive_analysis asks the model at most
    once and calls either no collector or all three; when the cache has
    no entry under the key it asks the model exactly once, after three
    collector calls. *)
Theorem call_costs_at_most_one_generation {L : Libs} (env : Env) (c : string)
    (m : option string) (f : option (list string)) (w : World) :
  let w' := snd (get_comprehensive_analysis env c m f w) in
  ((llm_calls w' = llm_calls w /\ fetches w' = fetches w) \/
   (llm_calls w' = S (llm_calls w) /\ fetches w' = (3 + fetches w)%nat)) /\
  (cache w !! cache_key c m f = None ->
   llm_calls w' = S (llm_calls w) /\ fetches w' = (3 + fetches w)%nat).
Proof.
  cbv zeta.
  assert (Hfresh : forall w1, llm_calls w1 = llm_calls w -> fetches w1 = fetches w ->
    llm_calls (snd (generate_fresh env (cache_key c m f) c m f w1)) = S (llm_calls w) /\
    fetches (snd (generate_fresh env (cache_key c m f) c m f w1)) = (3 + fetches w)%nat).
  { intros w1 Hl Hf.
    destruct (generate_fresh_summary env (cache_key c m f) c m f w1) as (H1 & H2 & _).
    cbv zeta in *. now rewrite H1, H2, Hl, Hf. }
  split.
  - destruct (gca_summary env c m f w)
      as [(d & t & _ & _ & H)|[(t & _ & H)|(w1 & _ & Hl & Hf & H)]];
      cbv zeta in H; rewrite H; cbn [snd]; auto.
  - intros Hmiss. rewrite gca_run. cbv zeta. rewrite Hmiss. now apply Hfresh.
Qed.

Lemma call_costs_at_most_one_generation_witness :
  let env := Sample.env_answering 0 Sample.text_prose in
  let w' := snd (get_comprehensive_analysis (L := Sample.libs) env "Apple" None
                   None Sample.w0) in
  llm_calls w' = 1%nat /\ fetches w' = 3%nat.
Proof.
  intros env w'.
  apply (proj2 (call_costs_at_most_one_generation (L := Sample.libs) env "Apple"
                  None None Sample.w0)).
  reflexivity.
Defined.

(* --------------------------------------------------------------------- *)
(* More about the string operations                                      *)
(* --------------------------------------------------------------------- *)

Lemma string_length_app (a b : string) :
  String.length (a ++ b) = (String.length a + String.length b)%nat.
Proof. induction a as [|c a IH]; simpl; [reflexivity | now rewrite IH]. Qed.

Lemma string_app_inv_tail (a b s : string) : a ++ s = b ++ s -> a = b.
Proof.
  intros H. apply (string_app_inv_len a s b s); [|exact H].
  apply (f_equal String.length) in H. rewrite !string_length_app in H. lia.
Qed.

Lemma rstrip_length (s : string) :
  (String.length (PyStr.rstrip s) <= String.length s)%nat.
Proof.
  induction s as [|c s IH]; simpl; [lia|].
  destruct (PyStr.rstrip s); [destruct (PyStr.isspace c)|]; simpl in *; lia.
Qed.

Lemma rstrip_all_space (t : string) :
  PyStr.all_space t = true -> PyStr.rstrip t = "".
Proof.
  induction t as [|c t IH]; simpl; [reflexivity|].
  intros [Hc Ht]%andb_prop. now rewrite (IH Ht), Hc.
Qed.

Lemma rstrip_app_space (a t : string) :
  PyStr.all_space t = true -> PyStr.rstrip (a ++ t) = PyStr.rstrip a.
Proof.
  intros Ht. induction a as [|c a IH]; simpl.
  - now apply rstrip_all_space.
  - now rewrite IH.
Qed.

Lemma rstrip_idem (s : string) : PyStr.rstrip (PyStr.rstrip s) = PyStr.rstrip s.
Proof.
  induction s as [|c s IH]; simpl; [reflexivity|].
  destruct (PyStr.rstrip s) as [|c' r] eqn:Hr.
  - destruct (PyStr.isspace c) eqn:Hc; simpl; [reflexivity|]. now rewrite Hc.
  - simpl. simpl in IH.
    destruct (match PyStr.rstrip r with
              | "" => if PyStr.isspace c' then "" else String c' ""
              | String a s0 => String c' (String a s0)
              end) eqn:E; [discriminate|]. now rewrite <- IH.
Qed.

(* rstrip keeps the first character of a string it does not empty *)
Lemma rstrip_head (c : ascii) (s : string) :
  PyStr.rstrip (String c s) = "" \/ exists r, PyStr.rstrip (String c s) = String c r.
Proof.
  simpl. destruct (PyStr.rstrip s); [destruct (PyStr.isspace c)|]; eauto.
Qed.

Lemma lstrip_id (s : string) :
  match s with
  | "" => True
  | String c _ => PyStr.isspace c = false
  end -> PyStr.lstrip s = s.
Proof. destruct s as [|c s]; simpl; [reflexivity|]. now intros ->. Qed.

(* A trimmed string is empty or starts with a character that is not
   white space, and trimming it again changes nothing. *)
Lemma strip_head (s : string) :
  match PyStr.strip s with
  | "" => True
  | String c _ => PyStr.isspace c = false
  end.
Proof.
  unfold PyStr.strip. pose proof (lstrip_head s) as H.
  destruct (PyStr.lstrip s) as [|c r]; [exact I|].
  destruct (rstrip_head c r) as [->|[r' ->]]; [exact I | exact H].
Qed.

Lemma strip_idem (s : string) : PyStr.strip (PyStr.strip s) = PyStr.strip s.
Proof.
  unfold PyStr.strip at 1. rewrite (lstrip_id _ (strip_head s)).
  unfold PyStr.strip. apply rstrip_idem.
Qed.

(* What split(" ", 1) returns: the string itself when it has no space,
   or the parts before and after its first space. *)
Lemma split_space_1_cases (s : string) :
  PyStr.split_space_1 s = [s] \/
  exists h t, PyStr.split_space_1 s = [h; t] /\ s = h ++ " " ++ t.
Proof.
  induction s as [|c s IH]; simpl; [now left|].
  destruct (Ascii.eqb c " ") eqn:Hc.
  - apply Ascii.eqb_eq in Hc as ->. right. exists "", s. split; reflexivity.
  - destruct IH as [->|(h & t & -> & Hs)]; [now left|].
    right. exists (String c h), t. split; [reflexivity|]. simpl. now rewrite Hs.
Qed.

(* In a trimmed string, what follows the first space is not blank. *)
Lemma split_arg_not_blank (s h arg : string) (rest : list string) :
  PyStr.split_space_1 (PyStr.strip s) = h :: arg :: rest ->
  PyStr.all_space (PyStr.strip arg) = false.
Proof.
  intros Hsplit.
  destruct (split_space_1_cases (PyStr.strip s)) as [H|(h' & t & H & Hs)];
    rewrite H in Hsplit; [discriminate|].
  injection Hsplit as <- <- _.
  destruct (PyStr.all_space (PyStr.strip t)) eqn:Hb; [exfalso | reflexivity].
  assert (Ht : PyStr.all_space t = true).
  { apply strip_empty_iff. pose proof (strip_head t) as Hh.
    destruct (PyStr.strip t) as [|c r]; [reflexivity|].
    simpl in Hb. rewrite Hh in Hb. discriminate. }
  assert (Hr : PyStr.rstrip (PyStr.strip s) = PyStr.strip s)
    by (unfold PyStr.strip; apply rstrip_idem).
  rewrite Hs in Hr. rewrite (rstrip_app_space h' (" " ++ t)) in Hr by exact Ht.
  apply (f_equal String.length) in Hr.
  pose proof (rstrip_length h') as Hl.
  rewrite string_length_app in Hr. simpl in Hr. lia.
Qed.

(* --------------------------------------------------------------------- *)
(* More about the webhook                                                *)
(* --------------------------------------------------------------------- *)

Section Webhook.

Context {L : Libs} (env : Env).

Lemma gca_trace_head (c : string) (m : option string) (f : option (list string))
    (w : World) :
  exists rest,
    trace (snd (get_comprehensive_analysis env c m f w))
    = (trace w ++ EvCacheRead (cache_key c m f) :: rest)%list.
Proof.
  rewrite gca_run. cbv zeta.
  assert (Hfresh : forall w1,
    trace w1 = (trace w ++ [EvCacheRead (cache_key c m f)])%list ->
    exists rest,
      trace (snd (generate_fresh env (cache_key c m f) c m f w1))
      = (trace w ++ EvCacheRead (cache_key c m f) :: rest)%list).
  { intros w1 Ht.
    destruct (generate_fresh_effects env (cache_key c m f) c m f w1)
      as (tail & Htr & _ & _).
    eexists. rewrite Htr, Ht, <- app_assoc. reflexivity. }
  destruct (cache w !! cache_key c m f) as [[dt [t|]]|];
    cbn [entry_timestamp entry_data]; try (apply Hfresh; reflexivity).
  destruct (_ <? _); [|apply Hfresh; reflexivity].
  exists []. destruct dt; reflexivity.
Qed.

(* The five ways the webhook can answer. *)
Lemma telex_webhook_cases (request_json : option json) (w : World) :
  (exists e,
     telex_webhook env request_json w
     = (Ok {| response := MsgError; resp_channel_id := None;
              resp_user_id := None; resp_error := Some e |}, w)) \/
  (exists data raw,
     request_json = Some (JDict data) /\
     dict_get data "content" (JStr "") = JStr raw /\
     let channel_id := dict_get data "channel_id" (JStr "") in
     let user_id := dict_get data "user_id" (JStr "") in
     ((PyStr.startswith_any (PyStr.lower (PyStr.strip raw)) COMMANDS = false /\
       telex_webhook env request_json w
       = (Ok {| response := MsgGreeting; resp_channel_id := Some channel_id;
                resp_user_id := None; resp_error := None |}, w)) \/
      (PyStr.startswith_any (PyStr.lower (PyStr.strip raw)) COMMANDS = true /\
       PyStr.split_space_1 (PyStr.strip raw) = [PyStr.strip raw] /\
       telex_webhook env request_json w
       = (Ok {| response := MsgNeedCompany; resp_channel_id := Some channel_id;
                resp_user_id := None; resp_error := None |}, w)) \/
      (PyStr.startswith_any (PyStr.lower (PyStr.strip raw)) COMMANDS = true /\
       exists h arg,
         PyStr.split_space_1 (PyStr.strip raw) = [h; arg] /\
         telex_webhook env request_json w
         = match get_comprehensive_analysis env (PyStr.strip arg) None None w with
           | (Ok r, w') =>
               (Ok {| response := render r; resp_channel_id := Some channel_id;
                      resp_user_id := Some user_id; resp_error := None |}, w')
           | (Raise e, w') =>
               (Ok {| response := MsgApology (PyStr.strip arg);
                      resp_channel_id := Some channel_id;
                      resp_user_id := None; resp_error := Some e |}, w')
           end))).
Proof.
  unfold telex_webhook, try_except.
  destruct request_json as [[| | | | | |data]|]; try (left; eexists; reflexivity).
  unfold webhook_body.
  destruct (dict_get data "content" (JStr "")) as [| | | |raw| |] eqn:Hc;
    try (left; eexists; reflexivity).
  right. exists data, raw. split; [reflexivity|]. split; [exact Hc|]. cbv zeta.
  destruct (PyStr.startswith_any _ COMMANDS) eqn:Hp.
  2:{ left. split; reflexivity. }
  right.
  destruct (split_space_1_cases (PyStr.strip raw)) as [Hs|(h & arg & Hs & _)];
    rewrite Hs.
  - left. repeat split.
  - right. split; [reflexivity|]. exists h, arg. split; [reflexivity|].
    unfold try_except, bind, ret.
    destruct (get_comprehensive_analysis env (PyStr.strip arg) None None w)
      as [[a|e] w']; reflexivity.
Qed.

End Webhook.

(** X7. The webhook never raises: whatever the request body is, it
    returns a response.  A body that is not JSON, is not a JSON object,
    or whose content is not a string is answered with the fixed error
    message, with no channel_id, and nothing else happens. *)
Theorem webhook_never_raises {L : Libs} (env : Env) (request_json : option json)
    (w : World) :
  (exists resp, fst (telex_webhook env request_json w) = Ok resp) /\
  (match request_json with
   | Some (JDict data) =>
       forall raw, dict_get data "content" (JStr "") <> JStr raw
   | _ => True
   end ->
   exists e,
     telex_webhook env request_json w
     = (Ok {| response := MsgError; resp_channel_id := None;
              resp_user_id := None; resp_error := Some e |}, w)).
Proof.
  split.
  - destruct (telex_webhook_cases env request_json w)
      as [[e H]|(data & raw & _ & _ & [[_ H]|[(_ & _ & H)|(_ & h & arg & _ & H)]])];
      cbv zeta in *; rewrite H; try (eexists; reflexivity).
    destruct (get_comprehensive_analysis env _ None None w) as [[r|e] w'];
      eexists; reflexivity.
  - intros Hbad.
    destruct (telex_webhook_cases env request_json w)
      as [H|(data & raw & -> & Hc & _)]; [exact H|].
    exfalso. exact (Hbad raw Hc).
Qed.

Lemma webhook_never_raises_witness :
  let env := Sample.env_answering 0 Sample.text_prose in
  telex_webhook (L := Sample.libs) env (Some (JDict [("content", JInt 7)])) Sample.w0
  = (Ok {| response := MsgError; resp_channel_id := None;
           resp_user_id := None; resp_error := Some AttributeError |}, Sample.w0).
Proof.
  intros env.
  destruct (proj2 (webhook_never_raises (L := Sample.libs) env
                     (Some (JDict [("content", JInt 7)])) Sample.w0)) as [e He].
  - intros raw. discriminate.
  - rewrite He. vm_compute in He. injection He as <-. reflexivity.
Defined.

(** X8. The webhook touches the cache, the collectors and the model only
    on the analysis path: when it answers with the greeting, with the
    request to name a company or with the error message, the world is
    as it was; when it answers with an apology for a company, or with an
    analysis, it has read the cache at that company's key with no market
    and no focus areas. *)
Theorem webhook_quiet_paths {L : Libs} (env : Env) (request_json : option json)
    (w : World) (resp : webhook_response) :
  fst (telex_webhook env request_json w) = Ok resp ->
  let w' := snd (telex_webhook env request_json w) in
  match response resp with
  | MsgGreeting | MsgNeedCompany | MsgError => w' = w
  | MsgApology c =>
      exists rest, trace w' = (trace w ++ EvCacheRead (cache_key c None None) :: rest)%list
  | MsgAnalysis _ _ _ _ _ _ _ =>
      exists c rest,
        trace w' = (trace w ++ EvCacheRead (cache_key c None None) :: rest)%list
  end.
Proof.
  cbv zeta.
  destruct (telex_webhook_cases env request_json w)
    as [[e H]|(data & raw & _ & _ & [[_ H]|[(_ & _ & H)|(_ & h & arg & _ & H)]])];
    cbv zeta in *; rewrite H; cbn [fst snd];
    try (intros Hr; injection Hr as <-; reflexivity).
  destruct (gca_trace_head env (PyStr.strip arg) None None w) as [rest Hrest].
  destruct (get_comprehensive_analysis env _ None None w) as [[r|e] w'];
    cbn [fst snd] in *; intros Hr; injection Hr as <-; cbn [response render]; eauto.
Qed.

Lemma webhook_quiet_paths_witness :
  let env := Sample.env_answering 0 Sample.text_prose in
  snd (telex_webhook (L := Sample.libs) env
         (Some (JDict [("content", JStr "research")])) Sample.w0) = Sample.w0.
Proof.
  intros env.
  exact (webhook_quiet_paths (L := Sample.libs) env
           (Some (JDict [("content", JStr "research")])) Sample.w0
           {| response := MsgNeedCompany; resp_channel_id := Some (JStr "");
              resp_user_id := None; resp_error := None |} eq_refl).
Defined.

(** X9. The webhook never analyses a blank company name: in a trimmed
    content, what follows the first space is never white space only, so
    the company it passes on is non-empty and trimmed, and a company
    named in an apology is never blank. *)
Theorem webhook_company_is_never_blank {L : Libs} (env : Env) :
  (forall raw h arg rest,
     PyStr.split_space_1 (PyStr.strip raw) = h :: arg :: rest ->
     PyStr.strip arg <> "" /\ PyStr.strip (PyStr.strip arg) = PyStr.strip arg) /\
  (forall request_json w resp c,
     fst (telex_webhook env request_json w) = Ok resp ->
     response resp = MsgApology c ->
     c <> "" /\ PyStr.all_space c = false).
Proof.
  assert (Hblank : forall raw h arg rest,
            PyStr.split_space_1 (PyStr.strip raw) = h :: arg :: rest ->
            PyStr.strip arg <> "").
  { intros raw h arg rest Hs He. apply split_arg_not_blank in Hs.
    rewrite He in Hs. discriminate. }
  split.
  - intros raw h arg rest Hs. split; [eapply Hblank, Hs | apply strip_idem].
  - intros request_json w resp c.
    destruct (telex_webhook_cases env request_json w)
      as [[e H]|(data & raw & _ & _ & [[_ H]|[(_ & _ & H)|(_ & h & arg & Hs & H)]])];
      cbv zeta in *; rewrite H; cbn [fst];
      try (intros Hr; injection Hr as <-; discriminate).
    destruct (get_comprehensive_analysis env _ None None w) as [[r|e] w'];
      cbn [fst]; intros Hr; injection Hr as <-; cbn [response render];
      [discriminate|].
    intros Hc. injection Hc as <-. split.
    + eapply Hblank, Hs.
    + eapply split_arg_not_blank, Hs.
Qed.

Lemma webhook_company_is_never_blank_witness :
  PyStr.strip "Apple  Inc" <> "" /\
  PyStr.strip (PyStr.strip "Apple  Inc") = PyStr.strip "Apple  Inc".
Proof.
  exact (proj1 (webhook_company_is_never_blank (L := Sample.libs)
                  (Sample.env_answering 0 Sample.text_prose))
           "  check Apple  Inc " "check" "Apple  Inc" [] eq_refl).
Defined.

(* --------------------------------------------------------------------- *)
(* Failures of the model and of the assembly                             *)
(* --------------------------------------------------------------------- *)

(* A miss whose outcome is decided by the reply of the model. *)
Lemma gca_miss_run {L : Libs} (env : Env) (c : string) (m : option string)
    (f : option (list string)) (w : World) :
  cache w !! cache_key c m f = None ->
  get_comprehensive_analysis env c m f w
  = generate_fresh env (cache_key c m f) c m f (with_read w (cache_key c m f)).
Proof. intros Hmiss. rewrite gca_run. cbv zeta. now rewrite Hmiss. Qed.

(** X10. When the call of the model raises, analyze_with_ai raises the
    HTTP error 500 AI analysis failed; on a cache miss
    get_comprehensive_analysis wraps it into the HTTP error 500 whose
    detail starts with Analysis failed, and the cache stays as it was;
    the analyze endpoint answers a non-blank request with the HTTP error
    500 Analysis failed, which names no cause. *)
Theorem model_failure_is_a_500 {L : Libs} (env : Env) :
  (forall data f w,
     generate_content env (llm_calls w)
       {| prompt_data := data;
          prompt_focus := or_list f ["comprehensive analysis"] |} = LlmRaises ->
     fst (analyze_with_ai env data f w)
     = Raise (HTTPException 500 "AI analysis failed" None)) /\
  (forall c m f w,
     cache w !! cache_key c m f = None ->
     generate_content env (llm_calls w)
       (prompt_of env c m f (with_read w (cache_key c m f))) = LlmRaises ->
     fst (get_comprehensive_analysis env c m f w)
     = Raise (HTTPException 500 "Analysis failed: "
                (Some (HTTPException 500 "AI analysis failed" None))) /\
     cache (snd (get_comprehensive_analysis env c m f w)) = cache w /\
     (PyStr.all_space c = false ->
      fst (analyze_competitor env
             {| req_company := c; req_market := m; req_focus_areas := f |} w)
      = Raise (HTTPException 500 "Analysis failed" None))).
Proof.
  split.
  - intros data f w Hgen. rewrite analyze_with_ai_run. cbv zeta. now rewrite Hgen.
  - intros c m f w Hmiss Hgen.
    assert (Hrun : get_comprehensive_analysis env c m f w
                   = (Raise (HTTPException 500 "Analysis failed: "
                               (Some (HTTPException 500 "AI analysis failed" None))),
                      asked (collected_world env c (with_read w (cache_key c m f)))
                        (prompt_of env c m f (with_read w (cache_key c m f))))).
    { rewrite gca_miss_run by exact Hmiss. rewrite generate_fresh_run. cbv zeta.
      change (llm_calls (with_read w (cache_key c m f))) with (llm_calls w).
      now rewrite Hgen. }
    split; [now rewrite Hrun|]. split.
    + rewrite Hrun. cbn [snd asked cache]. now rewrite collected_world_cache.
    + intros Hname. unfold analyze_competitor. cbn [req_company req_market req_focus_areas].
      destruct (String.eqb (PyStr.strip c) "") eqn:E.
      * apply String.eqb_eq, strip_empty_iff in E. congruence.
      * unfold try_except, raise. now rewrite Hrun.
Qed.

Lemma model_failure_is_a_500_witness :
  fst (analyze_competitor (L := Sample.libs) Scenario.env_model_down
         {| req_company := "Apple"; req_market := None; req_focus_areas := None |}
         Sample.w0)
  = Raise (HTTPException 500 "Analysis failed" None).
Proof.
  apply (proj2 (model_failure_is_a_500 (L := Sample.libs) Scenario.env_model_down)
           "Apple" None None Sample.w0); reflexivity.
Defined.

(** X11. A response that parses as JSON but cannot be assembled is not
    replaced by the canned payload: on a cache miss the request fails
    with the HTTP error 500 that names the cause, and nothing is cached.
    The cause is an AttributeError when the parsed value is not a JSON
    object, and a ValidationError when it is one. *)
Theorem unusable_json_fails_the_request {L : Libs} (env : Env) (c : string)
    (m : option string) (f : option (list string)) (w : World) (text : string)
    (v : json) (e : exn) :
  cache w !! cache_key c m f = None ->
  generate_content env (llm_calls w)
    (prompt_of env c m f (with_read w (cache_key c m f))) = LlmText text ->
  json_loads (PyStr.strip text) = Ok v ->
  assemble c v = Raise e ->
  fst (get_comprehensive_analysis env c m f w)
  = Raise (HTTPException 500 "Analysis failed: " (Some e)) /\
  cache (snd (get_comprehensive_analysis env c m f w)) = cache w /\
  e = match v with
      | JDict _ => ValidationError
      | _ => AttributeError
      end.
Proof.
  intros Hmiss Hgen Hjson Hasm.
  rewrite gca_miss_run by exact Hmiss. rewrite generate_fresh_run. cbv zeta.
  change (llm_calls (with_read w (cache_key c m f))) with (llm_calls w).
  rewrite Hgen. unfold assembled_of, insights_of. rewrite Hjson, Hasm.
  cbn [fst snd asked cache].
  split; [reflexivity|]. split; [now rewrite collected_world_cache|].
  unfold assemble in Hasm. destruct v as [| | | | | |d]; try congruence.
  destruct (validate_str _); [|congruence].
  do 4 (destruct (validate_str_list _); [|congruence]).
  destruct (validate_str _); [|congruence].
  destruct (validate_str_list _); [|congruence].
  destruct (validate_int _); [discriminate|congruence].
Qed.

(* The model answers with a JSON array. *)
Lemma unusable_json_fails_the_request_witness :
  let env := Sample.env_answering 0 Scenario.text_array in
  fst (get_comprehensive_analysis (L := Scenario.libs) env "Apple" None None
         Sample.w0)
  = Raise (HTTPException 500 "Analysis failed: " (Some AttributeError)) /\
  cache (snd (get_comprehensive_analysis (L := Scenario.libs) env "Apple" None None
                Sample.w0)) = ∅.
Proof.
  intros env.
  destruct (unusable_json_fails_the_request (L := Scenario.libs) env "Apple" None
              None Sample.w0 Scenario.text_array (JList [JInt 1; JInt 2])
              AttributeError eq_refl eq_refl eq_refl eq_refl) as (H1 & H2 & _).
  split; [exact H1 | exact H2].
Defined.

(** X12. analyze_with_ai asks the model exactly once on every path and
    does nothing else: it reads no clock, calls no collector and leaves
    the cache alone.  A response that parses as JSON is returned as
    parsed, whatever its shape. *)
Theorem analyze_with_ai_asks_once {L : Libs} (env : Env) (data : CollectedData)
    (f : option (list string)) (w : World) :
  let p := {| prompt_data := data;
              prompt_focus := or_list f ["comprehensive analysis"] |} in
  let run := analyze_with_ai env data f w in
  snd run = {| cache := cache w; clock_reads := clock_reads w;
               llm_calls := S (llm_calls w); fetches := fetches w;
               trace := trace w ++ [EvGenerate p] |} /\
  (forall text v,
     generate_content env (llm_calls w) p = LlmText text ->
     json_loads (PyStr.strip text) = Ok v ->
     fst run = Ok v).
Proof.
  cbv zeta. rewrite analyze_with_ai_run. cbv zeta.
  destruct (generate_content env _ _) as [text|].
  - split; [reflexivity|]. intros text' v' Ht Hv. injection Ht as <-.
    cbn [fst]. unfold insights_of. now rewrite Hv.
  - split; [reflexivity | discriminate].
Qed.

Lemma analyze_with_ai_asks_once_witness :
  let env := Sample.env_answering 0 Scenario.text_array in
  let data := collected_data env "Apple" None None Sample.w0 in
  fst (analyze_with_ai (L := Scenario.libs) env data None Sample.w0)
  = Ok (JList [JInt 1; JInt 2]).
Proof.
  intros env data.
  apply (proj2 (analyze_with_ai_asks_once (L := Scenario.libs) env data None
                  Sample.w0) Scenario.text_array); reflexivity.
Defined.

(** X13. A parse failure is cached like any result: after a cache miss
    answered with a response on which json.loads raises a
    JSONDecodeError, the canned result is stored under the key, and a
    later call with the same arguments made inside the TTL window returns
    the canned result again without asking the model.  A response on
    which json.loads raises another exception is not cached: the call
    raises the HTTP error 500 and the cache stays as it was. *)
Theorem parse_failure_is_cached {L : Libs} (env : Env) (c : string)
    (m : option string) (f : option (list string)) (w : World) (text : string) :
  cache w !! cache_key c m f = None ->
  generate_content env (llm_calls w)
    (prompt_of env c m f (with_read w (cache_key c m f))) = LlmText text ->
  (json_loads (PyStr.strip text) = Raise JSONDecodeError ->
   exists w1 t,
     get_comprehensive_analysis env c m f w = (Ok (fallback_result c c), w1) /\
     cache w1 !! cache_key c m f
     = Some {| entry_data := Some (fallback_result c c);
               entry_timestamp := Some t |} /\
     forall w2,
       cache w2 !! cache_key c m f = cache w1 !! cache_key c m f ->
       now_at env (clock_reads w2) - t < timedelta_seconds CACHE_TTL ->
       exists w2',
         get_comprehensive_analysis env c m f w2 = (Ok (fallback_result c c), w2') /\
         llm_calls w2' = llm_calls w2) /\
  (forall e,
     json_loads (PyStr.strip text) = Raise e -> e <> JSONDecodeError ->
     fst (get_comprehensive_analysis env c m f w)
     = Raise (HTTPException 500 "Analysis failed: "
                (Some (HTTPException 500 "AI analysis failed" None))) /\
     cache (snd (get_comprehensive_analysis env c m f w)) = cache w).
Proof.
  intros Hmiss Hgen. split.
  - intros Hjson.
    destruct (get_comprehensive_analysis env c m f w) as [res w1] eqn:Hrun.
    assert (Hres : res = Ok (fallback_result c c)).
    { pose proof Hrun as H. rewrite gca_miss_run in H by exact Hmiss.
      rewrite generate_fresh_run in H. cbv zeta in H.
      change (llm_calls (with_read w (cache_key c m f))) with (llm_calls w) in H.
      rewrite Hgen in H. unfold assembled_of, insights_of in H.
      rewrite Hjson, assemble_fallback, collected_name in H.
      now injection H as <- _. }
    subst res. destruct (gca_ok_cached env c m f w w1 _ Hrun) as [t Ht].
    exists w1, t. split; [reflexivity|]. split; [exact Ht|].
    intros w2 Hsame Hfresh. rewrite Ht in Hsame.
    eexists. split; [apply (gca_hit env c m f w2 _ t Hsame Hfresh)|]. reflexivity.
  - intros e Hjson Hne.
    rewrite gca_miss_run by exact Hmiss. rewrite generate_fresh_run. cbv zeta.
    change (llm_calls (with_read w (cache_key c m f))) with (llm_calls w).
    rewrite Hgen. unfold assembled_of, insights_of. rewrite Hjson.
    assert (He : match e with
                 | JSONDecodeError => Ok (fallback_insights
                                            (collected_data env c m f
                                               (with_read w (cache_key c m f))))
                 | _ => Raise (HTTPException 500 "AI analysis failed" None)
                 end = Raise (HTTPException 500 "AI analysis failed" None)).
    { destruct e; try reflexivity. now contradiction Hne. }
    rewrite He. cbn [fst snd asked cache].
    split; [reflexivity | now rewrite collected_world_cache].
Qed.

(* A response of prose is cached as the canned result; a response of 2000
   opening brackets fails the request and is not cached. *)
Lemma parse_failure_is_cached_witness :
  let env := Sample.env_answering 0 Sample.text_prose in
  let w1 := snd (get_comprehensive_analysis (L := Sample.libs) env "Apple" None
                   None Sample.w0) in
  (exists w2',
     get_comprehensive_analysis (L := Sample.libs) env "Apple" None None w1
     = (Ok (fallback_result "Apple" "Apple"), w2') /\
     llm_calls w2' = 1%nat) /\
  (fst (get_comprehensive_analysis (L := Sample.libs)
          (Sample.env_answering 0 Sample.text_deep) "Apple" None None Sample.w0)
   = Raise (HTTPException 500 "Analysis failed: "
              (Some (HTTPException 500 "AI analysis failed" None))) /\
   cache (snd (get_comprehensive_analysis (L := Sample.libs)
                 (Sample.env_answering 0 Sample.text_deep) "Apple" None None
                 Sample.w0)) = ∅).
Proof.
  intros env w1. split.
  - destruct (proj1 (parse_failure_is_cached (L := Sample.libs) env "Apple" None
                       None Sample.w0 Sample.text_prose eq_refl eq_refl) eq_refl)
      as (w1' & t & Hrun & Ht & Hnext).
    assert (Hw : w1' = w1) by (unfold w1; now rewrite Hrun).
    subst w1'.
    assert (Et : t = 1000000).
    { vm_compute in Ht. injection Ht as Ht. symmetry. exact Ht. }
    destruct (Hnext w1 eq_refl) as [w2' H2].
    { rewrite Et. vm_compute. reflexivity. }
    exists w2'. exact H2.
  - apply (proj2 (parse_failure_is_cached (L := Sample.libs)
                    (Sample.env_answering 0 Sample.text_deep) "Apple" None None
                    Sample.w0 Sample.text_deep eq_refl eq_refl) RecursionError).
    + vm_compute. reflexivity.
    + discriminate.
Defined.

(** X14. The webhook and the analyze endpoint share the cache: when the
    webhook has answered with an analysis, the result it rendered is
    stored under the key of a non-blank company with no market and no
    focus areas, and an analyze request for that company alone, made
    inside the TTL window, returns that result without asking the
    model. *)
Theorem webhook_result_is_served_to_analyze {L : Libs} (env : Env)
    (request_json : option json) (w : World) (resp : webhook_response)
    (sc ss : string) (st wk op rc : list string) (cs : Z) :
  fst (telex_webhook env request_json w) = Ok resp ->
  response resp = MsgAnalysis sc ss st wk op rc cs ->
  let w1 := snd (telex_webhook env request_json w) in
  exists c r t,
    PyStr.all_space c = false /\
    response resp = render r /\
    cache w1 !! cache_key c None None
    = Some {| entry_data := Some r; entry_timestamp := Some t |} /\
    forall w2,
      cache w2 !! cache_key c None None = cache w1 !! cache_key c None None ->
      now_at env (clock_reads w2) - t < timedelta_seconds CACHE_TTL ->
      exists w2',
        analyze_competitor env
          {| req_company := c; req_market := None; req_focus_areas := None |} w2
        = (Ok r, w2') /\
        llm_calls w2' = llm_calls w2.
Proof.
  cbv zeta.
  destruct (telex_webhook_cases env request_json w)
    as [[e H]|(data & raw & _ & _ & [[_ H]|[(_ & _ & H)|(_ & h & arg & Hs & H)]])];
    cbv zeta in *; rewrite H; cbn [fst snd];
    try (intros Hr; injection Hr as <-; discriminate).
  destruct (get_comprehensive_analysis env (PyStr.strip arg) None None w)
    as [[r|e] w'] eqn:Hrun; cbn [fst snd]; intros Hr; injection Hr as <-;
    cbn [response]; [|discriminate].
  intros _.
  pose proof (split_arg_not_blank _ _ _ _ Hs) as Hname.
  destruct (gca_ok_cached env _ None None w w' r Hrun) as [t Ht].
  exists (PyStr.strip arg), r, t.
  split; [exact Hname|]. split; [reflexivity|]. split; [exact Ht|].
  intros w2 Hsame Hfresh. rewrite Ht in Hsame.
  unfold analyze_competitor. cbn [req_company req_market req_focus_areas].
  destruct (String.eqb (PyStr.strip (PyStr.strip arg)) "") eqn:E.
  { apply String.eqb_eq, strip_empty_iff in E. congruence. }
  unfold try_except.
  rewrite (gca_hit env (PyStr.strip arg) None None w2 r t Hsame Hfresh).
  eexists. split; reflexivity.
Qed.

Lemma webhook_result_is_served_to_analyze_witness :
  let env := Sample.env_answering 0 Sample.text_score_85 in
  let body := Some (JDict [("content", JStr "Research Tesla")]) in
  let w1 := snd (telex_webhook (L := Sample.libs) env body Sample.w0) in
  exists c r t,
    PyStr.all_space c = false /\
    MsgAnalysis "Tesla" "" [] [] [] [] 85 = render r /\
    cache w1 !! cache_key c None None
    = Some {| entry_data := Some r; entry_timestamp := Some t |} /\
    forall w2,
      cache w2 !! cache_key c None None = cache w1 !! cache_key c None None ->
      now_at env (clock_reads w2) - t < timedelta_seconds CACHE_TTL ->
      exists w2',
        analyze_competitor (L := Sample.libs) env
          {| req_company := c; req_market := None; req_focus_areas := None |} w2
        = (Ok r, w2') /\
        llm_calls w2' = llm_calls w2.
Proof.
  intros env body w1.
  apply (webhook_result_is_served_to_analyze (L := Sample.libs) env body Sample.w0
           {| response := MsgAnalysis "Tesla" "" [] [] [] [] 85;
              resp_channel_id := Some (JStr ""); resp_user_id := Some (JStr "");
              resp_error := None |} "Tesla" "" [] [] [] [] 85).
  - vm_compute. reflexivity.
  - reflexivity.
Defined.

(** X15. The company enters the cache key exactly as it is given: with
    the same market and focus areas, two requests have the same key only
    if their company names are equal.  So a name with white space around
    it, which the analyze endpoint accepts, never shares an entry with
    the trimmed name, and the endpoint reads the cache at the key of the
    name as given. *)
Theorem cache_key_keeps_the_company {L : Libs} (env : Env) :
  (forall c c' m f, cache_key c m f = cache_key c' m f -> c = c') /\
  (forall c m f, PyStr.strip c <> c ->
                 cache_key (PyStr.strip c) m f <> cache_key c m f) /\
  (forall request w,
     PyStr.all_space (req_company request) = false ->
     exists rest,
       trace (snd (analyze_competitor env request w))
       = (trace w ++ EvCacheRead (cache_key (req_company request)
                                    (req_market request) (req_focus_areas request))
                  :: rest)%list).
Proof.
  assert (Hinj : forall c c' m f, cache_key c m f = cache_key c' m f -> c = c').
  { intros c c' m f H. unfold cache_key in H. now apply string_app_inv_tail in H. }
  split; [exact Hinj|]. split.
  - intros c m f Hne Heq. apply Hne. eapply Hinj, Heq.
  - intros request w Hname. unfold analyze_competitor.
    destruct (String.eqb (PyStr.strip (req_company request)) "") eqn:E.
    { apply String.eqb_eq, strip_empty_iff in E. congruence. }
    destruct (gca_trace_head env (req_company request) (req_market request)
                (req_focus_areas request) w) as [rest Hrest].
    exists rest. unfold try_except, raise.
    destruct (get_comprehensive_analysis env _ _ _ w) as [[r|e] w']; exact Hrest.
Qed.

Lemma cache_key_keeps_the_company_witness :
  cache_key (PyStr.strip " Apple ") (Some "tech") None
  <> cache_key " Apple " (Some "tech") None /\
  exists rest,
    trace (snd (analyze_competitor (L := Sample.libs)
                  (Sample.env_answering 0 Sample.text_prose)
                  {| req_company := " Apple "; req_market := Some "tech";
                     req_focus_areas := None |} Sample.w0))
    = EvCacheRead " Apple _tech_" :: rest.
Proof.
  destruct (cache_key_keeps_the_company (L := Sample.libs)
              (Sample.env_answering 0 Sample.text_prose)) as (_ & Hpad & Hread).
  split.
  - apply Hpad. discriminate.
  - apply (Hread {| req_company := " Apple "; req_market := Some "tech";
                    req_focus_areas := None |} Sample.w0). reflexivity.
Defined.

(** X16. The chat message of an analysis never shows more than three
    strengths, three weaknesses, three opportunities and two
    recommendations, whatever the lists of the result are. *)
Theorem chat_message_is_truncated {L : Libs} (env : Env)
    (request_json : option json) (w : World) (resp : webhook_response)
    (sc ss : string) (st wk op rc : list string) (cs : Z) :
  fst (telex_webhook env request_json w) = Ok resp ->
  response resp = MsgAnalysis sc ss st wk op rc cs ->
  (length st <= 3 /\ length wk <= 3 /\ length op <= 3 /\ length rc <= 2)%nat.
Proof.
  destruct (telex_webhook_cases env request_json w)
    as [[e H]|(data & raw & _ & _ & [[_ H]|[(_ & _ & H)|(_ & h & arg & Hs & H)]])];
    cbv zeta in *; rewrite H; cbn [fst];
    try (intros Hr; injection Hr as <-; discriminate).
  destruct (get_comprehensive_analysis env (PyStr.strip arg) None None w)
    as [[r|e] w']; cbn [fst]; intros Hr; injection Hr as <-;
    cbn [response]; [|discriminate].
  unfold render. intros Hm. injection Hm as _ _ <- <- <- <- _.
  repeat split; apply firstn_le_length.
Qed.

Lemma chat_message_is_truncated_witness :
  (length ["Market presence"; "Brand recognition"; "Innovation capability"] <= 3
   /\ length ["Limited data available"; "Market competition";
               "Economic sensitivity"] <= 3
   /\ length ["Digital transformation"; "Market expansion";
               "Strategic partnerships"] <= 3
   /\ length ["Conduct deeper market research";
               "Monitor competitor activities"] <= 2)%nat.
Proof.
  eapply (chat_message_is_truncated (L := Sample.libs)
            (Sample.env_answering 0 Sample.text_prose)
            (Some (JDict [("content", JStr "analyze Apple")])) Sample.w0).
  - vm_compute. reflexivity.
  - reflexivity.
Defined.

(* --------------------------------------------------------------------- *)
(* extract_company_name                                                  *)
(* --------------------------------------------------------------------- *)

Lemma kept_false_iff (w : string) : kept w = false <-> In w REMOVE_WORDS.
Proof.
  unfold kept. rewrite negb_false_iff, existsb_exists. split.
  - intros (x & Hin & Hx). apply String.eqb_eq in Hx. now subst.
  - intros Hin. exists w. split; [exact Hin | apply String.eqb_refl].
Qed.

Lemma filter_kept_nil (ws : list string) :
  filter (fun w => kept w = true) ws = []
  <-> Forall (fun w => In w REMOVE_WORDS) ws.
Proof.
  induction ws as [|x ws IH].
  - split; [constructor | reflexivity].
  - rewrite filter_cons. destruct (decide (kept x = true)) as [Hk|Hk].
    + split; [discriminate|]. intros H. inversion H as [|? ? Hx _]; subst.
      apply kept_false_iff in Hx. congruence.
    + rewrite IH. split.
      * intros H. constructor; [|exact H]. apply kept_false_iff.
        destruct (kept x); congruence.
      * intros H. now inversion H.
Qed.

Lemma isspace_lower_char (c : ascii) :
  PyStr.isspace (PyStr.lower_char c) = PyStr.isspace c.
Proof. destruct c as [[] [] [] [] [] [] [] []]; reflexivity. Qed.

Lemma lower_char_idem (c : ascii) :
  PyStr.lower_char (PyStr.lower_char c) = PyStr.lower_char c.
Proof. destruct c as [[] [] [] [] [] [] [] []]; reflexivity. Qed.

Lemma lower_idem (s : string) : PyStr.lower (PyStr.lower s) = PyStr.lower s.
Proof.
  induction s as [|c s IH]; simpl; [reflexivity|].
  now rewrite lower_char_idem, IH.
Qed.

Lemma lstrip_lower (s : string) :
  PyStr.lstrip (PyStr.lower s) = PyStr.lower (PyStr.lstrip s).
Proof.
  induction s as [|c s IH]; simpl; [reflexivity|].
  rewrite isspace_lower_char. destruct (PyStr.isspace c); [exact IH | reflexivity].
Qed.

Lemma rstrip_lower (s : string) :
  PyStr.rstrip (PyStr.lower s) = PyStr.lower (PyStr.rstrip s).
Proof.
  induction s as [|c s IH]; simpl; [reflexivity|].
  rewrite IH, isspace_lower_char.
  destruct (PyStr.rstrip s); simpl; [destruct (PyStr.isspace c)|]; reflexivity.
Qed.

Lemma strip_lower (s : string) :
  PyStr.strip (PyStr.lower s) = PyStr.lower (PyStr.strip s).
Proof. unfold PyStr.strip. now rewrite lstrip_lower, rstrip_lower. Qed.

(** X17. extract_company_name returns None exactly when every word of
    the text, lower-cased, is one of the eight words it removes (analyze,
    check, research, tell, me, about, company, competitor); a text with
    no word at all is such a text.  It ignores the case of the text: the
    lower-cased text gives the same answer. *)
Theorem extract_company_name_none_iff (title : string -> string) (text : string) :
  (extract_company_name title text = None
   <-> Forall (fun w => In w ["analyze"; "check"; "research"; "tell"; "me";
                               "about"; "company"; "competitor"])
         (PyStr.words (PyStr.lower (PyStr.strip text)))) /\
  extract_company_name title (PyStr.lower text) = extract_company_name title text.
Proof.
  split.
  - unfold extract_company_name. rewrite <- filter_kept_nil.
    destruct (filter _ _); split; intros H; try reflexivity; discriminate.
  - unfold extract_company_name. now rewrite strip_lower, lower_idem.
Qed.

(** X18. For a body that is a JSON object with a string content, every
    answer of the webhook echoes the channel_id of the body (the empty
    string when the body has none); the user_id is echoed only with an
    analysis, and an error is attached only to an apology. *)
Theorem webhook_echoes_channel {L : Libs} (env : Env)
    (data : list (string * json)) (raw : string) (w : World)
    (resp : webhook_response) :
  dict_get data "content" (JStr "") = JStr raw ->
  fst (telex_webhook env (Some (JDict data)) w) = Ok resp ->
  resp_channel_id resp = Some (dict_get data "channel_id" (JStr "")) /\
  match response resp with
  | MsgAnalysis _ _ _ _ _ _ _ =>
      resp_user_id resp = Some (dict_get data "user_id" (JStr "")) /\
      resp_error resp = None
  | MsgApology _ => resp_user_id resp = None /\ resp_error resp <> None
  | _ => resp_user_id resp = None /\ resp_error resp = None
  end.
Proof.
  intros Hc.
  destruct (telex_webhook_cases env (Some (JDict data)) w)
    as [[e H]|(data' & raw' & Hd & _ & [[_ H]|[(_ & _ & H)|(_ & h & arg & Hs & H)]])];
    cbv zeta in *.
  - exfalso. unfold telex_webhook, try_except, webhook_body in H.
    rewrite Hc in H.
    destruct (PyStr.startswith_any _ COMMANDS); [|discriminate].
    destruct (PyStr.split_space_1 _) as [|? [|arg ?]]; try discriminate.
    unfold try_except, bind, ret in H.
    destruct (get_comprehensive_analysis env _ None None w) as [[r|e0] w'];
      discriminate.
  - injection Hd as <-. rewrite H. cbn [fst]. intros Hr. injection Hr as <-.
    cbn. auto.
  - injection Hd as <-. rewrite H. cbn [fst]. intros Hr. injection Hr as <-.
    cbn. auto.
  - injection Hd as <-. rewrite H.
    destruct (get_comprehensive_analysis env _ None None w) as [[r|e0] w'];
      cbn [fst]; intros Hr; injection Hr as <-; cbn;
      repeat split; try reflexivity; discriminate.
Qed.

Lemma webhook_echoes_channel_witness :
  let env := Scenario.env_model_down in
  let data := [("content", JStr "check Apple"); ("channel_id", JStr "c-1");
               ("user_id", JStr "u-1")] in
  fst (telex_webhook (L := Sample.libs) env (Some (JDict data)) Sample.w0)
  = Ok {| response := MsgApology "Apple";
          resp_channel_id := Some (JStr "c-1");
          resp_user_id := None;
          resp_error :=
            Some (HTTPException 500 "Analysis failed: "
                    (Some (HTTPException 500 "AI analysis failed" None))) |} /\
  Some (JStr "c-1") = Some (dict_get data "channel_id" (JStr "")).
Proof.
  intros env data. split; [vm_compute; reflexivity|].
  exact (proj1 (webhook_echoes_channel (L := Sample.libs) env data "check Apple"
                  Sample.w0 _ eq_refl eq_refl)).
Defined.

(** X19. A collector does nothing but collect: each of the three records
    one call, returns a value whether or not its body raises, and leaves
    the cache and the model alone; only get_recent_news reads the clock,
    once, and only when its body does not raise.  The bag of
    get_company_basic_info always carries the company under name. *)
Theorem collectors_only_collect {L : Libs} (env : Env) (c : string) (w : World) :
  (exists b,
     get_company_basic_info env c w = (Ok b, entered w BasicInfo c) /\
     dict_lookup "name" b = Some c) /\
  (exists n,
     get_recent_news env c w
     = (Ok n, if body_raises env (fetches w) RecentNews
              then entered w RecentNews c
              else tick (entered w RecentNews c))) /\
  (exists b, get_market_data env c w = (Ok b, entered w MarketData c)).
Proof.
  rewrite get_company_basic_info_run, get_recent_news_run, get_market_data_run.
  split; [|split]; eexists; try reflexivity.
  split; [reflexivity|]. unfold basic_info_at.
  destruct (body_raises env (fetches w) BasicInfo); reflexivity.
Qed.
